(** * Course data provider: the worker's course calculations, verified

    A shallow embedding of the Signal K course-data plugin:
    - the worker (src/worker/course.ts, both revisions that ship in the
      source tree): [parseSKPaths], [toRadians], [calcs], [vmg], [timeCalcs],
      [passedPerpendicular], [toVector] and the message handlers;
    - the part of the plugin (src/index.ts) that drives the two watchers;
    - the range watcher of lib/alarms, which the plugin imports.

    Numbers.  A JavaScript number is an IEEE-754 double.  Here a number is
    either [NaN] or a finite value, and finite values are exact reals:
    rounding, signed zero and the two infinities are left out.  Every
    definition below follows the source line by line over that arithmetic.
    Where rounding decides what the code answers (a quotient that lands on
    a whole millisecond, an [acos] argument at -1 or 1, a cosine at a right
    angle) the properties below are stated with the margin that holds for
    doubles as well, or are not stated.

    The geodesy library (lib/geodesy) is not part of the source tree: its
    five functions, its point constructor and the parsing of a timestamp
    are parameters of the development. *)

From Stdlib Require Import Reals Lra Lia ZArith List String Bool.
Import ListNotations.

Local Open Scope R_scope.

(* ================================================================= *)
(** ** JavaScript numbers *)

Inductive number : Type :=
  | NaN
  | Num (r : R).

Declare Scope js_scope.
Delimit Scope js_scope with js.
Bind Scope js_scope with number.

Definition lift1 (f : R -> R) (a : number) : number :=
  match a with
  | Num x => Num (f x)
  | NaN => NaN
  end.

Definition lift2 (f : R -> R -> R) (a b : number) : number :=
  match a, b with
  | Num x, Num y => Num (f x y)
  | _, _ => NaN
  end.

Definition nadd : number -> number -> number := lift2 Rplus.
Definition nsub : number -> number -> number := lift2 Rminus.
Definition nmul : number -> number -> number := lift2 Rmult.

(** [a / b].  A zero divisor gives [NaN]: JavaScript gives [NaN] for 0/0
    and an infinity otherwise, and infinities are not part of the model. *)
Definition ndiv (a b : number) : number :=
  match a, b with
  | Num x, Num y => if Req_dec_T y 0 then NaN else Num (x / y)
  | _, _ => NaN
  end.

(** Comparisons are false as soon as one side is [NaN]. *)
Definition nlt (a b : number) : bool :=
  match a, b with
  | Num x, Num y => if Rlt_dec x y then true else false
  | _, _ => false
  end.

Definition ngt (a b : number) : bool := nlt b a.

Definition nle (a b : number) : bool :=
  match a, b with
  | Num x, Num y => if Rle_dec x y then true else false
  | _, _ => false
  end.

Definition nge (a b : number) : bool := nle b a.

Infix "+" := nadd : js_scope.
Infix "-" := nsub : js_scope.
Infix "*" := nmul : js_scope.
Infix "/" := ndiv : js_scope.
Infix "<?" := nlt (at level 70, no associativity) : js_scope.
Infix ">?" := ngt (at level 70, no associativity) : js_scope.
Infix "<=?" := nle (at level 70, no associativity) : js_scope.
Infix ">=?" := nge (at level 70, no associativity) : js_scope.

(** [!v] for a value that is a number or null: null, 0 and NaN are falsy. *)
Definition falsy (v : option number) : bool :=
  match v with
  | None => true
  | Some NaN => true
  | Some (Num r) => if Req_dec_T r 0 then true else false
  end.

(** The functions of [Math] the worker calls. *)
Module Math.

Definition PI : number := Num Rtrigo1.PI.

Definition cos : number -> number := lift1 Rtrigo_def.cos.

Definition acos (a : number) : number :=
  match a with
  | Num x =>
      if Rle_dec (-1) x then
        if Rle_dec x 1 then Num (Ratan.acos x) else NaN
      else NaN
  | NaN => NaN
  end.

Definition sqrt (a : number) : number :=
  match a with
  | Num x => if Rle_dec 0 x then Num (R_sqrt.sqrt x) else NaN
  | NaN => NaN
  end.

Definition pow (a : number) (n : nat) : number := lift1 (fun x => x ^ n) a.

Definition floor : number -> number := lift1 (fun x => IZR (Int_part x)).

End Math.

(* ================================================================= *)
(** ** Completions: a call returns a value or throws *)

Inductive exn : Type :=
  | RangeError
  | TypeError.

Inductive completion (A : Type) : Type :=
  | Normal (a : A)
  | Throw (e : exn).

Arguments Normal {A} a.
Arguments Throw {A} e.

Definition bind {A B : Type} (c : completion A) (k : A -> completion B)
  : completion B :=
  match c with
  | Normal a => k a
  | Throw e => Throw e
  end.

Notation "x <- c ;; k" := (bind c (fun x => k))
  (at level 61, c at next level, right associativity).

(* ================================================================= *)
(** ** Dates

    A [Date] is its time value: milliseconds since the epoch, or [NaN] for
    an invalid date. *)

Definition Date : Type := number.

(** The text [toISOString] prints for a valid date, kept as the instant it
    denotes (the text and the integer time value determine each other). *)
Inductive isoString : Type :=
  | ISO (ms : Z).

Definition maxTime : R := 8640000000000000.

(** [new Date(t)] for a number [t]: the time value is clipped, an instant
    further than 8.64e15 ms from the epoch is invalid, and a fraction of a
    millisecond is dropped towards zero. *)
(** The integer part of [x], towards zero. *)
Definition trunc (x : R) : Z :=
  if Rle_dec 0 x then Int_part x else (- Int_part (- x))%Z.

Definition Date_of_number (t : number) : Date :=
  match t with
  | Num x => if Rle_dec (Rabs x) maxTime then Num (IZR (trunc x)) else NaN
  | NaN => NaN
  end.

Definition getTime (d : Date) : number := d.

(** [d.toISOString()] throws a RangeError on an invalid date. *)
Definition toISOString (d : Date) : completion isoString :=
  match d with
  | Num x => Normal (ISO (Int_part x))
  | NaN => Throw RangeError
  end.

(* ================================================================= *)
(** ** Data model (src/types/index.ts and the worker's inputs) *)

(** A position value of the Signal K data model. *)
Record Position : Type := mkPosition {
  latitude : number;
  longitude : number
}.

(** [LatLon], the point class of the geodesy library: a point with what
    its getters [latitude] and [longitude] give.  The constructor is the
    library's, a parameter of the worker below. *)
Definition LatLon : Type := Position.

(** [SKPaths]: the values of the subscribed paths, keyed by path.  A value
    that is absent (null or undefined) is [None]; a numeric path holds
    [Some n] exactly when [typeof] gives ['number']. *)
Record SKPaths : Type := mkSKPaths {
  navigation_position : option Position;
  navigation_course_nextPoint_position : option Position;
  navigation_course_previousPoint_position : option Position;
  navigation_magneticVariation : option number;
  navigation_headingTrue : option number;
  navigation_speedOverGround : option number;
  navigation_datetime : option string;
  navigation_course_nextPoint_arrivalCircle : option number
}.

Record PreviousPoint : Type := mkPreviousPoint {
  pp_distance : option number
}.

(** [CourseResult]: every property is optional; [None] is a property that
    is absent or null. *)
Record CourseResult : Type := mkCourseResult {
  calcMethod : option string;
  bearingTrackTrue : option number;
  bearingTrackMagnetic : option number;
  crossTrackError : option number;
  distance : option number;
  bearingTrue : option number;
  bearingMagnetic : option number;
  velocityMadeGood : option number;
  timeToGo : option number;
  estimatedTimeOfArrival : option isoString;
  previousPoint : option PreviousPoint
}.

(** The object literal [{}]. *)
Definition emptyResult : CourseResult :=
  mkCourseResult None None None None None None None None None None None.

(** [CourseData].  [passedPerpendicular] is [None] on an object that does
    not carry the property. *)
Record CourseData : Type := mkCourseData {
  gc : CourseResult;
  rl : CourseResult;
  passedPerpendicular_flag : option bool
}.

(** [{ ttg, eta }], the result of [timeCalcs]. *)
Record TimeResult : Type := mkTimeResult {
  ttg : option number;
  eta : option isoString
}.

(** [Vector] of the worker, with its fields [x], [y] and [length]. *)
Record Vector : Type := mkVector {
  vx : number;
  vy : number;
  length : number
}.

(* ================================================================= *)
(** ** The worker (src/worker/course.ts) *)

Definition parseSKPaths (src : SKPaths) : bool :=
  match navigation_position src,
        navigation_course_nextPoint_position src,
        navigation_course_previousPoint_position src with
  | Some _, Some _, Some _ => true
  | _, _, _ => false
  end.

Definition toRadians (value : number) : number :=
  ((value * Math.PI) / Num 180)%js.

(** Velocity made good to course. *)
Definition vmg (src : SKPaths) (bearingTrue : number) : option number :=
  match navigation_headingTrue src, navigation_speedOverGround src with
  | Some headingTrue, Some speedOverGround =>
      Some (Math.cos (bearingTrue - headingTrue) * speedOverGround)%js
  | _, _ => None
  end.

(** Longitudinal difference, with the date line transition. *)
Definition xDiff (a b : number) : number :=
  let bx :=
    if (a >? Num 170)%js && (b <? Num 0)%js then
      (* E->W transition *)
      (a + (Num 180 - a) + (Num 180 + b))%js
    else if (a <? Num (-170))%js && (b >? Num 0)%js then
      (* W->E transition *)
      (a - (Num 180 + a) - (Num 180 - b))%js
    else b in
  (bx - a)%js.

Definition toVector (origin end_ : LatLon) : Vector :=
  let x := xDiff (longitude origin) (longitude end_) in
  let y := (latitude end_ - latitude origin)%js in
  mkVector x y (Math.sqrt (Math.pow x 2 + Math.pow y 2)%js).

(** True if the vessel is past the perpendicular of the destination. *)
Definition passedPerpendicular (vesselPosition destination startPoint : LatLon)
  : bool :=
  let va := toVector destination vesselPosition in
  let vb := toVector destination startPoint in
  let rad :=
    Math.acos ((vx va * vx vb + vy va * vy vb) / (length va * length vb))%js in
  let deg := ((Num 180 / Math.PI) * rad)%js in
  if (deg >? Num 90)%js then true else false.

(** The object [{ gc: {}, rl: {} }] the handler posts to invalidate the
    values. *)
Definition invalidated : CourseData :=
  mkCourseData emptyResult emptyResult None.

Section Worker.

(** The geodesy library (lib/geodesy/latlon-spherical.js) is taken as
    given.  [new LatLon(lat, lon)] makes a point of two coordinates, or
    throws when it rejects them; the coordinates of the point it makes are
    the library's to choose. *)
Variable new_LatLon : number -> number -> completion LatLon.
(** [p.distanceTo(q)] and so on, bearings in degrees. *)
Variable distanceTo : LatLon -> LatLon -> number.
Variable initialBearingTo : LatLon -> LatLon -> number.
Variable rhumbDistanceTo : LatLon -> LatLon -> number.
Variable rhumbBearingTo : LatLon -> LatLon -> number.
(** [p.crossTrackDistanceTo(pathStart, pathEnd)]. *)
Variable crossTrackDistanceTo : LatLon -> LatLon -> LatLon -> number.

(** [new Date(s).getTime()] for a string [s]; [NaN] when [s] does not
    parse. *)
Variable Date_parse : string -> number.

(** Time to go and estimated time of arrival at the next point.  [now] is
    what the clock reads when [new Date()] is evaluated.  The first test
    is [typeof distance !== 'number' || !vmg]: [distance] is [None] when
    it is not of type number, [vmg] is [None] when it is null, and a
    number is falsy when it is 0 or NaN.  An absent or empty
    [navigation.datetime] is falsy. *)
Definition timeCalcs (now : Z) (src : SKPaths)
    (distance : option number) (vmg : option number)
  : completion TimeResult :=
  match distance, vmg with
  | Some distance, Some v =>
      if falsy (Some v) then Normal (mkTimeResult None None)
      else
        let date : Date :=
          match navigation_datetime src with
          | None | Some EmptyString => Num (IZR now)
          | Some s => Date_parse s
          end in
        let dateMsec := getTime date in
        let ttgMsec :=
          Math.floor ((distance / (v * Num 0.514444)) * Num 1000)%js in
        let etaMsec := (dateMsec + ttgMsec)%js in
        eta <- toISOString (Date_of_number etaMsec) ;;
        Normal (mkTimeResult (Some (ttgMsec / Num 1000)%js) (Some eta))
  | _, _ => Normal (mkTimeResult None None)
  end.

(** Course calculations.  The three points are constructed, each when it
    is present, before anything is tested: an exception of the constructor
    leaves [calcs] there. *)
Definition calcs (now : Z) (src : SKPaths) : completion CourseData :=
  vesselPosition <-
    match navigation_position src with
    | Some p => q <- new_LatLon (latitude p) (longitude p) ;; Normal (Some q)
    | None => Normal None
    end ;;
  destination <-
    match navigation_course_nextPoint_position src with
    | Some p => q <- new_LatLon (latitude p) (longitude p) ;; Normal (Some q)
    | None => Normal None
    end ;;
  startPoint <-
    match navigation_course_previousPoint_position src with
    | Some p => q <- new_LatLon (latitude p) (longitude p) ;; Normal (Some q)
    | None => Normal None
    end ;;
  let res := mkCourseData emptyResult emptyResult (Some false) in
  match vesselPosition, destination, startPoint with
  | Some vesselPosition, Some destination, Some startPoint =>
      let xte := crossTrackDistanceTo vesselPosition startPoint destination in
      (* Great Circle *)
      let bearingTrackTrue :=
        toRadians (initialBearingTo startPoint destination) in
      let bearingTrue :=
        toRadians (initialBearingTo vesselPosition destination) in
      let bearingTrackMagnetic :=
        match navigation_magneticVariation src with
        | Some variation => Some (bearingTrackTrue - variation)%js
        | None => None
        end in
      let bearingMagnetic :=
        match navigation_magneticVariation src with
        | Some variation => Some (bearingTrue - variation)%js
        | None => None
        end in
      let gcDistance := distanceTo vesselPosition destination in
      let gcVmg := vmg src bearingTrue in
      gcTime <- timeCalcs now src (Some gcDistance) gcVmg ;;
      let res_gc :=
        {| calcMethod := Some "Great Circle"%string;
           bearingTrackTrue := Some bearingTrackTrue;
           bearingTrackMagnetic := bearingTrackMagnetic;
           crossTrackError := Some xte;
           distance := Some gcDistance;
           bearingTrue := Some bearingTrue;
           bearingMagnetic := bearingMagnetic;
           velocityMadeGood := gcVmg;
           timeToGo := ttg gcTime;
           estimatedTimeOfArrival := eta gcTime;
           previousPoint :=
             Some (mkPreviousPoint
                     (Some (distanceTo vesselPosition startPoint))) |} in
      (* Rhumbline *)
      let rlBearingTrackTrue :=
        toRadians (rhumbBearingTo startPoint destination) in
      let rlBearingTrue :=
        toRadians (rhumbBearingTo vesselPosition destination) in
      let rlBearingTrackMagnetic :=
        match navigation_magneticVariation src with
        | Some variation => Some (rlBearingTrackTrue - variation)%js
        | None => None
        end in
      let rlBearingMagnetic :=
        match navigation_magneticVariation src with
        | Some variation => Some (rlBearingTrue - variation)%js
        | None => None
        end in
      let rlDistance := rhumbDistanceTo vesselPosition destination in
      let rlVmg := vmg src rlBearingTrue in
      rlTime <- timeCalcs now src (Some rlDistance) rlVmg ;;
      let res_rl :=
        {| calcMethod := Some "Rhumbline"%string;
           bearingTrackTrue := Some rlBearingTrackTrue;
           bearingTrackMagnetic := rlBearingTrackMagnetic;
           crossTrackError := Some xte;
           distance := Some rlDistance;
           bearingTrue := Some rlBearingTrue;
           bearingMagnetic := rlBearingMagnetic;
           velocityMadeGood := rlVmg;
           timeToGo := ttg rlTime;
           estimatedTimeOfArrival := eta rlTime;
           previousPoint :=
             Some (mkPreviousPoint
                     (Some (rhumbDistanceTo vesselPosition startPoint))) |} in
      (* passed destination perpendicular *)
      Normal (mkCourseData res_gc res_rl
                (Some (passedPerpendicular vesselPosition destination
                         startPoint)))
  | _, _, _ => Normal res
  end.

(** [calcs] on these positions throws [e]: one of its two calls of
    [timeCalcs] does. *)
Definition timeCalcsThrows (now : Z) (src : SKPaths)
    (vesselPosition destination : LatLon) (e : exn) : Prop :=
  timeCalcs now src (Some (distanceTo vesselPosition destination))
    (vmg src (toRadians (initialBearingTo vesselPosition destination)))
  = Throw e
  \/
  timeCalcs now src (Some (rhumbDistanceTo vesselPosition destination))
    (vmg src (toRadians (rhumbBearingTo vesselPosition destination)))
  = Throw e.

(** One message from the main thread.  The state is the module variable
    [activeDest]; the result is what is posted back, if anything, and the
    new [activeDest].  An exception of [calcs] leaves the handler before
    anything is posted. *)
Definition onMessage (now : Z) (message : SKPaths) (activeDest : bool)
  : completion (option CourseData * bool) :=
  if parseSKPaths message then
    res <- calcs now message ;;
    Normal (Some res, true)
  else
    if activeDest then Normal (Some invalidated, false)
    else Normal (None, activeDest).

(** The handler over the messages of a session, oldest first, each with
    the clock reading at its arrival. *)
Fixpoint runWorker (activeDest : bool) (messages : list (Z * SKPaths))
  : completion (list (option CourseData) * bool) :=
  match messages with
  | [] => Normal ([], activeDest)
  | (now, message) :: rest =>
      step <- onMessage now message activeDest ;;
      tail <- runWorker (snd step) rest ;;
      Normal (fst step :: fst tail, snd tail)
  end.

End Worker.

(** [activeDest] when the worker starts. *)
Definition activeDest_init : bool := false.

(* ================================================================= *)
(** ** The earlier revision of the handler, with its stale counter *)

Module Legacy.

Record CoursePoint : Type := mkCoursePoint {
  position : option Position
}.

Record Course : Type := mkCourse {
  nextPoint : option CoursePoint;
  previousPoint : option CoursePoint
}.

(** [SKPaths] as this revision reads it: the course is one object under
    ['navigation.course']. *)
Record SKPaths : Type := mkSKPaths {
  navigation_position : option Position;
  navigation_course : option Course
}.

Definition staleCounter_init : Z := 0%Z.
Definition MAX_STALE_COUNT : Z := 20%Z.

(** [src['navigation.course']?.nextPoint?.position] and its sibling. *)
Definition nextPoint_position (src : SKPaths) : option Position :=
  match navigation_course src with
  | Some c =>
      match nextPoint c with
      | Some p => position p
      | None => None
      end
  | None => None
  end.

Definition previousPoint_position (src : SKPaths) : option Position :=
  match navigation_course src with
  | Some c =>
      match previousPoint c with
      | Some p => position p
      | None => None
      end
  | None => None
  end.

(** Validate the source data; the counter is the module variable
    [staleCounter], returned updated. *)
Definition parseSKPaths (src : SKPaths) (staleCounter : Z) : bool * Z :=
  match navigation_position src, nextPoint_position src,
        previousPoint_position src with
  | Some _, Some _, Some _ => (true, 0%Z)
  | _, _, _ => (false, (staleCounter + 1)%Z)
  end.

Section Handler.

(** The course data of this revision, its [calcs] (the same calculations,
    written to a result with nested points; the handler only posts what
    it returns) and the object [{ gc: {}, rl: {} }]. *)
Variable CourseData : Type.
Variable calcs : Z -> SKPaths -> completion CourseData.
Variable invalidated : CourseData.

Definition onMessage (now : Z) (message : SKPaths) (staleCounter : Z)
  : completion (option CourseData * Z) :=
  let res := invalidated in
  let '(ok, staleCounter) := parseSKPaths message staleCounter in
  if ok then
    res <- calcs now message ;;
    Normal (Some res, staleCounter)
  else
    if (staleCounter >? MAX_STALE_COUNT)%Z then
      (* invalidate all result values *)
      Normal (Some res, 0%Z)
    else Normal (None, staleCounter).

Fixpoint runWorker (staleCounter : Z) (messages : list (Z * SKPaths))
  : completion (list (option CourseData) * Z) :=
  match messages with
  | [] => Normal ([], staleCounter)
  | (now, message) :: rest =>
      step <- onMessage now message staleCounter ;;
      tail <- runWorker (snd step) rest ;;
      Normal (fst step :: fst tail, snd tail)
  end.

End Handler.

End Legacy.

(* ================================================================= *)
(** ** The range watcher (lib/alarms) *)

Module Watcher.

(** Modelled from the spec: the two kinds of event of lib/alarms, which is
    not part of the source tree. *)
Inductive EventType : Type :=
  | enter
  | exit.

(** Modelled from the spec: the event of lib/alarms, which is not part of
    the source tree; it carries its kind and the value that triggered
    it. *)
Record WatchEvent : Type := mkWatchEvent {
  type : EventType;
  value : number
}.

(** Modelled from the spec: the watcher's state is its current membership
    ([inside]: Inside or Outside), the range bounds and the last observed
    raw value. *)
Record t : Type := mkWatcher {
  inside : bool;
  rangeMin : number;
  rangeMax : number;
  lastValue : number
}.

(** Modelled from the spec: a watcher starts Outside; the class of
    lib/alarms is not part of the source tree, and its default bounds and
    first value are taken as given. *)
Definition new (rangeMin rangeMax lastValue : number) : t :=
  mkWatcher false rangeMin rangeMax lastValue.

(** Modelled from the spec: setting a bound emits nothing and only
    affects the membership test of the next observation. *)
Definition set_rangeMin (w : t) (v : number) : t :=
  mkWatcher (inside w) v (rangeMax w) (lastValue w).

(** Modelled from the spec: the same for the upper bound. *)
Definition set_rangeMax (w : t) (v : number) : t :=
  mkWatcher (inside w) (rangeMin w) v (lastValue w).

(** Modelled from the spec: membership of the range [[rangeMin, rangeMax)]. *)
Definition isInRange (w : t) (v : number) : bool :=
  (rangeMin w <=? v)%js && (v <? rangeMax w)%js.

(** Modelled from the spec: [observe] (the setter of [value] in
    lib/alarms).  Outside to Inside fires [enter] when the value is in
    the range and the state was Outside; Inside to Outside fires [exit]
    on the reverse; no event on a call where membership is unchanged. *)
Definition observe (w : t) (v : number) : t * option WatchEvent :=
  let member := isInRange w v in
  if member && negb (inside w) then
    (mkWatcher true (rangeMin w) (rangeMax w) v, Some (mkWatchEvent enter v))
  else if negb member && inside w then
    (mkWatcher false (rangeMin w) (rangeMax w) v, Some (mkWatchEvent exit v))
  else
    (mkWatcher (inside w) (rangeMin w) (rangeMax w) v, None).

(** What the plugin does to a watcher between two events. *)
Inductive op : Type :=
  | SetRangeMin (v : number)
  | SetRangeMax (v : number)
  | Observe (v : number).

Definition step (w : t) (o : op) : t * option WatchEvent :=
  match o with
  | SetRangeMin v => (set_rangeMin w v, None)
  | SetRangeMax v => (set_rangeMax w v, None)
  | Observe v => observe w v
  end.

(** The events of a sequence of operations, one entry per operation. *)
Fixpoint run (w : t) (ops : list op) : list (option WatchEvent) :=
  match ops with
  | [] => []
  | o :: rest => snd (step w o) :: run (fst (step w o)) rest
  end.

Fixpoint final (w : t) (ops : list op) : t :=
  match ops with
  | [] => w
  | o :: rest => final (fst (step w o)) rest
  end.

(** The kinds of the events emitted, in order. *)
Fixpoint kinds (events : list (option WatchEvent)) : list EventType :=
  match events with
  | [] => []
  | Some e :: rest => type e :: kinds rest
  | None :: rest => kinds rest
  end.

(** [enter, exit, enter, ...]: what a watcher that is Outside may emit
    ([alternating false]), or [exit, enter, ...] for one that is Inside
    ([alternating true]). *)
Fixpoint alternating (inside : bool) (ks : list EventType) : bool :=
  match ks with
  | [] => true
  | enter :: rest => negb inside && alternating true rest
  | exit :: rest => inside && alternating false rest
  end.

End Watcher.

(* ================================================================= *)
(** ** The plugin's use of the watchers (src/index.ts) *)

Section Plugin.

(** The bounds and value of a watcher fresh from [new Watcher()]. *)
Variable defaultMin defaultMax defaultValue : number.

Record Plugin : Type := mkPlugin {
  watchArrival : Watcher.t;
  watchPassedDest : Watcher.t;
  courseCalcs : option CourseData
}.

(** The watchers when the plugin is created. *)
Definition plugin_init : Plugin :=
  let watchArrival := Watcher.new defaultMin defaultMax defaultValue in
  let watchPassedDest := Watcher.new defaultMin defaultMax defaultValue in
  let watchPassedDest := Watcher.set_rangeMin watchPassedDest (Num 1) in
  let watchPassedDest := Watcher.set_rangeMax watchPassedDest (Num 2) in
  mkPlugin watchArrival watchPassedDest None.

(** [a ?? b]. *)
Definition nullish (a : option number) (b : number) : number :=
  match a with
  | Some v => v
  | None => b
  end.

(** [calcResult]: the watchers' part of handling a result of the worker;
    the events of the arrival watcher and of the passage watcher come
    back with the new state. *)
Definition calcResult (srcPaths : SKPaths) (result : CourseData) (p : Plugin)
  : Plugin * (option Watcher.WatchEvent * option Watcher.WatchEvent) :=
  let wa :=
    Watcher.set_rangeMax (watchArrival p)
      (nullish (navigation_course_nextPoint_arrivalCircle srcPaths)
         (Num (-1))) in
  let '(wa, arrival) :=
    Watcher.observe wa (nullish (distance (gc result)) (Num (-1))) in
  let '(wp, passed) :=
    Watcher.observe (watchPassedDest p)
      (match passedPerpendicular_flag result with
       | Some true => Num 1
       | _ => Num 0
       end) in
  (mkPlugin wa wp (Some result), (arrival, passed)).

End Plugin.

(* ================================================================= *)
(** ** The plugin's configuration, delta message and endpoint
    (src/index.ts) *)

Record Notifications : Type := mkNotifications {
  sound : bool
}.

Record Calculations : Type := mkCalculations {
  method : string;
  autopilot : option bool
}.

(** [config]: the plugin's settings. *)
Record Config : Type := mkConfig {
  notifications : Notifications;
  calculations : Calculations
}.

(** The settings the plugin starts with. *)
Definition config_init : Config :=
  mkConfig (mkNotifications false)
    (mkCalculations "GreatCircle" (Some false)).

Record OptionsNotifications : Type := mkOptionsNotifications {
  options_sound : option bool
}.

Record OptionsCalculations : Type := mkOptionsCalculations {
  options_method : option string;
  options_autopilot : option bool
}.

(** [options], what the server hands to [start]: every part may be
    undefined ([None]). *)
Record Options : Type := mkOptions {
  options_notifications : option OptionsNotifications;
  options_calculations : option OptionsCalculations
}.

(** The settings after [doStartup]: [options] replace [config] when both
    [options.notifications?.sound] and [options.calculations?.method] are
    defined, and are dropped otherwise. *)
Definition doStartup (config : Config) (options : Options) : Config :=
  match options_notifications options, options_calculations options with
  | Some n, Some c =>
      match options_sound n, options_method c with
      | Some s, Some m =>
          mkConfig (mkNotifications s) (mkCalculations m (options_autopilot c))
      | _, _ => config
      end
  | _, _ => config
  end.

(** A value of a delta message. *)
Inductive jsvalue : Type :=
  | VUndefined
  | VNull
  | VNumber (n : number)
  | VString (s : string)
  | VDate (t : isoString).

Module Delta.

(** [{ path, value }]. *)
Record Value : Type := mk {
  path : string;
  value : jsvalue
}.

(** The value sent for [path], if any. *)
Fixpoint lookup (p : string) (values : list Value) : option jsvalue :=
  match values with
  | [] => None
  | v :: rest => if String.eqb (path v) p then Some (value v) else lookup p rest
  end.

End Delta.

(** [typeof x === 'undefined' ? null : x] for a property that is a number,
    null or undefined. *)
Definition numberOrNull (x : option number) : jsvalue :=
  match x with
  | Some n => VNumber n
  | None => VNull
  end.

(** A truthy setting. *)
Definition enabled (b : option bool) : bool :=
  match b with
  | Some true => true
  | _ => false
  end.

(** [buildDeltaMsg]: the [values] of the one update of the delta message
    sent for a result of the worker.  [calcMethod] is sent as it is (an
    absent one stays undefined); [targetSpeed] is not a property the
    worker writes. *)
Definition buildDeltaMsg (config : Config) (course : CourseData)
  : list Delta.Value :=
  let calcPath := "navigation.course.calcValues"%string in
  let source :=
    if String.eqb (method (calculations config)) "Rhumbline"
    then rl course else gc course in
  [ Delta.mk (calcPath ++ ".calcMethod")
      (match calcMethod source with
       | Some m => VString m
       | None => VUndefined
       end);
    Delta.mk (calcPath ++ ".bearingTrackTrue")
      (numberOrNull (bearingTrackTrue source));
    Delta.mk (calcPath ++ ".bearingTrackMagnetic")
      (numberOrNull (bearingTrackMagnetic source));
    Delta.mk (calcPath ++ ".crossTrackError")
      (numberOrNull (crossTrackError source));
    Delta.mk (calcPath ++ ".previousPoint.distance")
      (numberOrNull
         (match previousPoint source with
          | Some p => pp_distance p
          | None => None
          end));
    Delta.mk (calcPath ++ ".distance") (numberOrNull (distance source));
    Delta.mk (calcPath ++ ".bearingTrue") (numberOrNull (bearingTrue source)) ]
  ++ (if enabled (autopilot (calculations config)) then
        [ Delta.mk "steering.autopilot.target.headingTrue"
            (numberOrNull (bearingTrue source)) ]
      else [])
  ++ [ Delta.mk (calcPath ++ ".bearingMagnetic")
         (numberOrNull (bearingMagnetic source)) ]
  ++ (if enabled (autopilot (calculations config)) then
        [ Delta.mk "steering.autopilot.target.bearingMagnetic"
            (numberOrNull (bearingMagnetic source)) ]
      else [])
  ++ [ Delta.mk (calcPath ++ ".velocityMadeGood")
         (numberOrNull (velocityMadeGood source));
       Delta.mk (calcPath ++ ".timeToGo") (numberOrNull (timeToGo source));
       Delta.mk (calcPath ++ ".estimatedTimeOfArrival")
         (match estimatedTimeOfArrival source with
          | Some t => VDate t
          | None => VNull
          end);
       Delta.mk (calcPath ++ ".targetSpeed") VNull ].

(** The answer of the endpoint [GET .../navigation/course/calcValues]. *)
Inductive Response : Type :=
  | Json (status : Z) (body : CourseResult)
  | Failed (status : Z) (state : string) (message : string).

(** The handler of the endpoint: the branch of [courseCalcs] the settings
    select, or a failure when there is none.  An object, even an empty
    one, is truthy. *)
Definition getCalcValues (config : Config) (courseCalcs : option CourseData)
  : Response :=
  let calcs :=
    if String.eqb (method (calculations config)) "Rhumbline"
    then option_map rl courseCalcs
    else option_map gc courseCalcs in
  match calcs with
  | None => Failed 400 "FAILED" "No active destination!"
  | Some calcs => Json 200 calcs
  end.

(** [calc]: the message posted to the worker, if any. *)
Definition calc (srcPaths : SKPaths) : option SKPaths :=
  match navigation_position srcPaths with
  | Some _ => Some srcPaths
  | None => None
  end.

(* ================================================================= *)
(** ** The quantities the properties speak of *)

(** The two intermediate values of [timeCalcs], under the names the source
    gives them: the timestamp the estimate starts from, and the time to go
    in whole milliseconds. *)
Definition dateMsec (Date_parse : string -> number) (now : Z) (src : SKPaths)
  : number :=
  match navigation_datetime src with
  | None | Some EmptyString => Num (IZR now)
  | Some s => Date_parse s
  end.

Definition ttgMsec (distance v : number) : number :=
  Math.floor ((distance / (v * Num 0.514444)) * Num 1000)%js.

(** The snapshot has a point at [p], and the library's constructor makes
    the point [q] of its coordinates. *)
Definition pointAt (new_LatLon : number -> number -> completion LatLon)
    (p : option Position) (q : LatLon) : Prop :=
  exists raw : Position,
    p = Some raw /\ new_LatLon (latitude raw) (longitude raw) = Normal q.

(** The library's constructor accepts the point at [p], when there is
    one. *)
Definition accepted (new_LatLon : number -> number -> completion LatLon)
    (p : option Position) : Prop :=
  forall raw : Position,
    p = Some raw ->
    exists q, new_LatLon (latitude raw) (longitude raw) = Normal q.

(** The constructor throws [e] on a point that the snapshot has. *)
Definition rejected (new_LatLon : number -> number -> completion LatLon)
    (src : SKPaths) (e : exn) : Prop :=
  exists raw : Position,
    (navigation_position src = Some raw \/
     navigation_course_nextPoint_position src = Some raw \/
     navigation_course_previousPoint_position src = Some raw) /\
    new_LatLon (latitude raw) (longitude raw) = Throw e.

(** The passage test as the specification words it.  The longitude
    difference from [origin] to [end_] is unwrapped by 360 degrees across
    the antimeridian when one of the two longitudes is beyond +170 and the
    other is negative, or one is beyond -170 and the other is positive,
    whichever of the two is the origin: 360 is added when the way from the
    origin to the end crosses the antimeridian eastwards, and subtracted
    when it crosses westwards. *)
Definition unwrappedDifference (origin end_ : number) : number :=
  if ((origin >? Num 170)%js && (end_ <? Num 0)%js)
     || ((end_ <? Num (-170))%js && (origin >? Num 0)%js) then
    ((end_ + Num 360) - origin)%js
  else if ((origin <? Num (-170))%js && (end_ >? Num 0)%js)
          || ((end_ >? Num 170)%js && (origin <? Num 0)%js) then
    ((end_ - Num 360) - origin)%js
  else (end_ - origin)%js.

(** The pairs of longitudes on which the source and the specification
    unwrap alike: they differ only where the end of the vector, and not
    its origin, is the longitude beyond 170 degrees. *)
Definition unwrappedAlike (origin end_ : R) : Prop :=
  (170 < origin \/ origin <= 0 \/ -170 <= end_) /\
  (origin < -170 \/ 0 <= origin \/ end_ <= 170).

(** The angle, in degrees, between the plane vectors [(ax, ay)] and
    [(bx, by)], by the dot product formula. *)
Definition angleDegrees (ax ay bx by_ : number) : number :=
  let dot := (ax * bx + ay * by_)%js in
  let norm_a := Math.sqrt (ax * ax + ay * ay)%js in
  let norm_b := Math.sqrt (bx * bx + by_ * by_)%js in
  ((Math.acos (dot / (norm_a * norm_b)) * Num 180) / Math.PI)%js.

(** Vessel past the perpendicular: the angle at the destination between
    the vessel and the start point is strictly greater than 90 degrees, in
    the equirectangular plane (longitude difference and latitude difference
    taken as they are). *)
Definition passageByAngle (vessel destination start : LatLon) : bool :=
  (angleDegrees
     (unwrappedDifference (longitude destination) (longitude vessel))
     (latitude vessel - latitude destination)
     (unwrappedDifference (longitude destination) (longitude start))
     (latitude start - latitude destination)
   >? Num 90)%js.

(** The magnetic bearings of one branch of a result, given the magnetic
    variation of the snapshot: each is the true bearing of the same name
    minus the variation, or null when the variation is not known. *)
Definition magneticFromTrue (variation : option number) (b : CourseResult)
  : Prop :=
  match variation with
  | Some variation =>
      (exists t, bearingTrackTrue b = Some t /\
                 bearingTrackMagnetic b = Some (t - variation)%js) /\
      (exists t, bearingTrue b = Some t /\
                 bearingMagnetic b = Some (t - variation)%js)
  | None => bearingTrackMagnetic b = None /\ bearingMagnetic b = None
  end.


(** A message is stale when it lacks the vessel position, the destination
    or the start point. *)
Definition stale (m : Z * SKPaths) : Prop := parseSKPaths (snd m) = false.

Definition legacy_stale (m : Z * Legacy.SKPaths) : Prop :=
  fst (Legacy.parseSKPaths (snd m) 0%Z) = false.

(** What the earlier revision posts on the [i]-th of a run of stale
    messages that starts with the counter at [c]: the invalidating object
    each time the count reaches a multiple of 21. *)
Definition legacy_posted {CourseData : Type} (invalidated : CourseData)
    (c : Z) (i : nat) : option CourseData :=
  if ((c + Z.of_nat i) mod 21 =? 0)%Z then Some invalidated else None.

(** The events the specification asks of a watcher over the values
    observed, one entry per value: an event exactly where the membership
    of the value differs from the membership before it ([state], at
    first the watcher's own), [enter] into the range and [exit] out of
    it. *)
Fixpoint transitionEvents (member : number -> bool) (state : bool)
    (values : list number) : list (option Watcher.WatchEvent) :=
  match values with
  | [] => []
  | v :: rest =>
      (if Bool.eqb (member v) state then None
       else Some (Watcher.mkWatchEvent
                    (if member v then Watcher.enter else Watcher.exit) v))
      :: transitionEvents member (member v) rest
  end.

(** What the handler posts over a session: [postsOf compute activeDest
    messages posts] holds when, message by message, a valid message has
    its computed result posted, a stale message that follows a valid one
    (or comes first with [activeDest] set) has the invalidating object
    posted, and any other stale message has nothing posted. *)
Fixpoint postsOf (compute : Z -> SKPaths -> completion CourseData)
    (activeDest : bool) (messages : list (Z * SKPaths))
    (posts : list (option CourseData)) : Prop :=
  match messages, posts with
  | [], [] => True
  | (now, message) :: messages, post :: posts =>
      (if parseSKPaths message
       then exists r, compute now message = Normal r /\ post = Some r
       else post = if activeDest then Some invalidated else None) /\
      postsOf compute (parseSKPaths message) messages posts
  | _, _ => False
  end.

(** [activeDest] after a session. *)
Definition lastValid (activeDest : bool) (messages : list (Z * SKPaths))
  : bool :=
  List.last (map (fun m => parseSKPaths (snd m)) messages) activeDest.

(** A posted object without the passage flag: the invalidating object,
    since every result of [calcs] carries the flag. *)
Definition isInvalidation (post : option CourseData) : bool :=
  match post with
  | Some r =>
      match passedPerpendicular_flag r with
      | None => true
      | Some _ => false
      end
  | None => false
  end.

(** A bearing field of a result against the bearing in degrees it comes
    from: when that is a number of degrees in [[0, 360)], the field is the
    same angle in radians, in [[0, 2 PI)]. *)
Definition radiansOf (degrees : number) (field : option number) : Prop :=
  forall theta : R,
    degrees = Num theta ->
    0 <= theta < 360 ->
    exists b : R,
      field = Some (Num b) /\ b = theta * PI / 180 /\ 0 <= b < 2 * PI.

(** A magnetic bearing field against the true bearing in degrees and the
    magnetic variation it comes from: the true bearing in radians minus
    the variation, as it is, so below 0 when the variation is the
    larger. *)
Definition shiftedBy (degrees : number) (variation : option number)
    (field : option number) : Prop :=
  forall theta var : R,
    degrees = Num theta ->
    variation = Some (Num var) ->
    exists m : R,
      field = Some (Num m) /\ m = theta * PI / 180 - var /\
      (m < 0 <-> theta * PI / 180 < var).

(** A library and a parser to run the worker on.  The sample vessel is on
    the equator, one nautical mile south of the destination and one north
    of the start point; the library answers for these points: a distance
    of 1852 m, a bearing of 0 degrees, no cross-track distance.  Its
    constructor rejects a coordinate that is not a number with a TypeError
    and makes the point of any other pair as it is given (the samples are
    within the range of latitudes and longitudes).  Every timestamp parses
    to the same instant. *)
Module Sample.

Definition new_LatLon (lat lon : number) : completion LatLon :=
  match lat, lon with
  | Num _, Num _ => Normal (mkPosition lat lon)
  | _, _ => Throw TypeError
  end.
Definition distanceTo (p q : LatLon) : number := Num 1852.
Definition initialBearingTo (p q : LatLon) : number := Num 0.
Definition rhumbDistanceTo (p q : LatLon) : number := Num 1852.
Definition rhumbBearingTo (p q : LatLon) : number := Num 0.
Definition crossTrackDistanceTo (p pathStart pathEnd : LatLon) : number :=
  Num 0.
Definition Date_parse (s : string) : number := Num 1700000000000.

Definition vessel : Position := mkPosition (Num 0) (Num 0).
Definition destination : Position := mkPosition (Num (1 / 60)) (Num 0).
Definition start : Position := mkPosition (Num (-1 / 60)) (Num 0).

(** Vessel, destination and start point known; no heading, speed,
    variation or timestamp. *)
Definition positionsOnly : SKPaths :=
  mkSKPaths (Some vessel) (Some destination) (Some start)
    None None None None None.

(** The same with heading north at one knot. *)
Definition underWay : SKPaths :=
  mkSKPaths (Some vessel) (Some destination) (Some start)
    None (Some (Num 0)) (Some (Num 1)) None None.

(** The same with a timestamp and a magnetic variation. *)
Definition stamped : SKPaths :=
  mkSKPaths (Some vessel) (Some destination) (Some start)
    (Some (Num 0.1)) (Some (Num 0)) (Some (Num 1))
    (Some "2023-11-14T22:13:20.000Z"%string) None.

(** No destination. *)
Definition noDestination : SKPaths :=
  mkSKPaths (Some vessel) None (Some start)
    None (Some (Num 0)) (Some (Num 1)) None None.

(** No destination, and a vessel position whose latitude is not a
    number. *)
Definition noFix : SKPaths :=
  mkSKPaths (Some (mkPosition NaN (Num 0))) None (Some start)
    None (Some (Num 0)) (Some (Num 1)) None None.

(** Heading away from the destination (south, PI radians) and all but
    stopped, at 1e-10 knots. *)
Definition drifting : SKPaths :=
  mkSKPaths (Some vessel) (Some destination) (Some start)
    None (Some Math.PI) (Some (Num 1e-10)) None None.


(** A leg along the equator towards the antimeridian, from longitude 160
    to longitude 169, with the vessel 16 degrees past the destination, on
    the other side of the antimeridian at longitude -175. *)
Definition past169 : SKPaths :=
  mkSKPaths (Some (mkPosition (Num 0) (Num (-175))))
    (Some (mkPosition (Num 0) (Num 169)))
    (Some (mkPosition (Num 0) (Num 160)))
    None None None None None.

(** The same for the earlier revision: a position and no course. *)
Definition legacyStale : Legacy.SKPaths :=
  Legacy.mkSKPaths (Some vessel) None.

End Sample.

(* ================================================================= *)
(** ** How a call ends *)

(** [outcome c P Q]: [c] returns a value that satisfies [P], or throws an
    exception that satisfies [Q]. *)
Definition outcome {A : Type} (c : completion A)
    (P : A -> Prop) (Q : exn -> Prop) : Prop :=
  match c with
  | Normal a => P a
  | Throw e => Q e
  end.

(* ================================================================= *)
(** * Properties *)

(** ** Arithmetic of [number] *)

Lemma nlt_Num (x y : R) : (Num x <? Num y)%js = true <-> x < y.
Proof.
  unfold nlt. destruct (Rlt_dec x y); split; intros; try easy.
Qed.

Lemma nlt_Num_false (x y : R) : (Num x <? Num y)%js = false <-> y <= x.
Proof.
  unfold nlt. destruct (Rlt_dec x y); split; intros; try easy; lra.
Qed.

Lemma nle_Num (x y : R) : (Num x <=? Num y)%js = true <-> x <= y.
Proof.
  unfold nle. destruct (Rle_dec x y); split; intros; try easy.
Qed.

Lemma ndiv_Num (x y : R) : y <> 0 -> (Num x / Num y)%js = Num (x / y).
Proof.
  intros Hy. unfold ndiv. destruct (Req_dec_T y 0); [contradiction|reflexivity].
Qed.

Lemma ndiv_zero (x : R) : (Num x / Num 0)%js = NaN.
Proof.
  unfold ndiv. destruct (Req_dec_T 0 0); [reflexivity|contradiction].
Qed.

Lemma falsy_Num (r : R) : falsy (Some (Num r)) = false <-> r <> 0.
Proof.
  unfold falsy. destruct (Req_dec_T r 0); split; intros; try easy.
Qed.

Lemma falsy_spec (v : option number) :
  falsy v = true <-> v = None \/ v = Some NaN \/ v = Some (Num 0).
Proof.
  destruct v as [[|r]|]; simpl.
  - split; auto.
  - destruct (Req_dec_T r 0) as [->|Hr].
    + split; auto.
    + split; [discriminate|].
      intros [H|[H|H]]; try discriminate. injection H as H. contradiction.
  - split; auto.
Qed.

Lemma floor_le (x : R) : IZR (Int_part x) <= x < IZR (Int_part x) + 1.
Proof.
  destruct (base_Int_part x). lra.
Qed.

Lemma Int_part_IZR (z : Z) : Int_part (IZR z) = z.
Proof.
  symmetry. apply Int_part_spec. lra.
Qed.

(** Unfolds [calcs] in [Hr] on a snapshot whose three points the
    constructor has made ([Hv], [Hd] and [Hs] are the three [pointAt]). *)
Ltac calcs_in Hr Hv Hd Hs :=
  let pv := fresh "pv" in
  let pd := fresh "pd" in
  let ps := fresh "ps" in
  let Hv1 := fresh "Hv" in
  let Hv2 := fresh "Hv" in
  let Hd1 := fresh "Hd" in
  let Hd2 := fresh "Hd" in
  let Hs1 := fresh "Hs" in
  let Hs2 := fresh "Hs" in
  destruct Hv as (pv & Hv1 & Hv2);
  destruct Hd as (pd & Hd1 & Hd2);
  destruct Hs as (ps & Hs1 & Hs2);
  unfold calcs in Hr;
  rewrite Hv1, Hd1, Hs1 in Hr; cbv beta iota in Hr;
  rewrite Hv2, Hd2, Hs2 in Hr; cbn [bind] in Hr.

(** ** The worker: structure of the result *)

Section WorkerProperties.

Variable new_LatLon : number -> number -> completion LatLon.
Variable distanceTo : LatLon -> LatLon -> number.
Variable initialBearingTo : LatLon -> LatLon -> number.
Variable rhumbDistanceTo : LatLon -> LatLon -> number.
Variable rhumbBearingTo : LatLon -> LatLon -> number.
Variable crossTrackDistanceTo : LatLon -> LatLon -> LatLon -> number.
Variable Date_parse : string -> number.

Local Abbreviation calcs' :=
  (calcs new_LatLon distanceTo initialBearingTo rhumbDistanceTo rhumbBearingTo
     crossTrackDistanceTo Date_parse).
Local Abbreviation pointAt' := (pointAt new_LatLon).
Local Abbreviation accepted' := (accepted new_LatLon).
Local Abbreviation timeCalcs' := (timeCalcs Date_parse).
Local Abbreviation timeCalcsThrows' :=
  (timeCalcsThrows distanceTo initialBearingTo rhumbDistanceTo rhumbBearingTo
     Date_parse).

Lemma parseSKPaths_true (src : SKPaths) :
  parseSKPaths src = true <->
  exists vessel destination start,
    navigation_position src = Some vessel /\
    navigation_course_nextPoint_position src = Some destination /\
    navigation_course_previousPoint_position src = Some start.
Proof.
  unfold parseSKPaths.
  destruct (navigation_position src) as [v|],
    (navigation_course_nextPoint_position src) as [d|],
    (navigation_course_previousPoint_position src) as [s|];
    (split; [intros H | intros (v' & d' & s' & H1 & H2 & H3)]);
    try discriminate; try reflexivity; eauto 10.
Qed.

Lemma parseSKPaths_false (src : SKPaths) :
  parseSKPaths src = false <->
  navigation_position src = None \/
  navigation_course_nextPoint_position src = None \/
  navigation_course_previousPoint_position src = None.
Proof.
  unfold parseSKPaths.
  destruct (navigation_position src) as [v|],
    (navigation_course_nextPoint_position src) as [d|],
    (navigation_course_previousPoint_position src) as [s|];
    (split; [intros H | intros [H|[H|H]]]);
    try discriminate; try reflexivity; auto.
Qed.

(** On a valid snapshot whose points the constructor has made, [calcs] is
    its two calls of [timeCalcs] followed by the construction of the
    result. *)
Lemma calcs_valid (now : Z) (src : SKPaths) (vessel destination start : LatLon)
    (P : CourseData -> Prop) :
  pointAt' (navigation_position src) vessel ->
  pointAt' (navigation_course_nextPoint_position src) destination ->
  pointAt' (navigation_course_previousPoint_position src) start ->
  (forall gcTime rlTime,
     timeCalcs' now src (Some (distanceTo vessel destination))
       (vmg src (toRadians (initialBearingTo vessel destination)))
     = Normal gcTime ->
     timeCalcs' now src (Some (rhumbDistanceTo vessel destination))
       (vmg src (toRadians (rhumbBearingTo vessel destination)))
     = Normal rlTime ->
     forall r, calcs' now src = Normal r -> P r) ->
  outcome (calcs' now src) P
    (fun e => timeCalcsThrows' now src vessel destination e).
Proof.
  intros (pv & Hv & Hv') (pd & Hd & Hd') (ps & Hs & Hs') HP.
  assert (E : exists f : TimeResult -> TimeResult -> CourseData,
             calcs' now src =
             (gcTime <- timeCalcs' now src
                          (Some (distanceTo vessel destination))
                          (vmg src
                             (toRadians
                                (initialBearingTo vessel destination))) ;;
              rlTime <- timeCalcs' now src
                          (Some (rhumbDistanceTo vessel destination))
                          (vmg src
                             (toRadians (rhumbBearingTo vessel destination))) ;;
              Normal (f gcTime rlTime))).
  { unfold calcs. rewrite Hv, Hd, Hs. cbv beta iota.
    rewrite Hv', Hd', Hs'. cbn [bind].
    eexists (fun gcTime rlTime => _). reflexivity. }
  destruct E as [f E]. unfold timeCalcsThrows.
  destruct (timeCalcs' now src (Some (distanceTo vessel destination)) _)
    as [gcTime|e1] eqn:Hgc.
  - destruct (timeCalcs' now src (Some (rhumbDistanceTo vessel destination)) _)
      as [rlTime|e2] eqn:Hrl.
    + specialize (HP gcTime rlTime eq_refl eq_refl).
      rewrite E in *. simpl in *. apply HP. reflexivity.
    + rewrite E. simpl. auto.
  - rewrite E. simpl. auto.
Qed.

(** ** [timeCalcs] *)

Lemma timeCalcs_eq (now : Z) (src : SKPaths) (distance v : number) :
  timeCalcs' now src (Some distance) (Some v) =
  if falsy (Some v) then Normal (mkTimeResult None None)
  else
    eta <- toISOString
             (Date_of_number
                (dateMsec Date_parse now src + ttgMsec distance v)%js) ;;
    Normal (mkTimeResult (Some (ttgMsec distance v / Num 1000)%js) (Some eta)).
Proof.
  unfold timeCalcs, dateMsec, ttgMsec, getTime.
  destruct (navigation_datetime src) as [[|c s]|]; reflexivity.
Qed.

Lemma timeCalcs_no_vmg (now : Z) (src : SKPaths) (distance : option number) :
  timeCalcs' now src distance None = Normal (mkTimeResult None None).
Proof. destruct distance; reflexivity. Qed.

Lemma timeCalcs_falsy (now : Z) (src : SKPaths) (distance vmg : option number) :
  falsy vmg = true ->
  timeCalcs' now src distance vmg = Normal (mkTimeResult None None).
Proof.
  intros H. destruct distance as [d|], vmg as [v|]; try reflexivity.
  rewrite timeCalcs_eq, H. reflexivity.
Qed.

Lemma ttgMsec_Num (d v : R) :
  v <> 0 ->
  ttgMsec (Num d) (Num v)
  = Num (IZR (Int_part (d / (v * 0.514444) * 1000))).
Proof.
  intros Hv. unfold ttgMsec. cbn [nmul lift2].
  rewrite ndiv_Num by (intros H; apply Hv; lra). reflexivity.
Qed.

Lemma toISOString_Date_of_number (x : R) :
  Rabs x <= maxTime ->
  toISOString (Date_of_number (Num x)) = Normal (ISO (trunc x)).
Proof.
  intros H. unfold Date_of_number.
  destruct (Rle_dec (Rabs x) maxTime); [|contradiction].
  simpl. rewrite Int_part_IZR. reflexivity.
Qed.

Lemma toISOString_Date_of_number_Normal (t : number) (s : isoString) :
  toISOString (Date_of_number t) = Normal s ->
  exists x, t = Num x /\ Rabs x <= maxTime /\ s = ISO (trunc x).
Proof.
  destruct t as [|x]; simpl; [discriminate|].
  destruct (Rle_dec (Rabs x) maxTime); simpl; [|discriminate].
  rewrite Int_part_IZR. intros [= <-]. eauto.
Qed.

(** [timeCalcs] on a numeric distance and a velocity made good that is a
    number other than 0: the value it returns when the arrival instant is
    a valid date. *)
Lemma timeCalcs_value (now : Z) (src : SKPaths) (d v dm : R) :
  v <> 0 ->
  dateMsec Date_parse now src = Num dm ->
  Rabs (dm + IZR (Int_part (d / (v * 0.514444) * 1000))) <= maxTime ->
  timeCalcs' now src (Some (Num d)) (Some (Num v))
  = Normal
      (mkTimeResult
         (Some (Num (IZR (Int_part (d / (v * 0.514444) * 1000)) / 1000)))
         (Some (ISO (trunc
                       (dm + IZR (Int_part (d / (v * 0.514444) * 1000))))))).
Proof.
  intros Hv Hdm Hr. rewrite timeCalcs_eq.
  destruct (falsy (Some (Num v))) eqn:Hf.
  { apply falsy_Num in Hv. congruence. }
  rewrite Hdm, ttgMsec_Num by assumption. cbn [nadd lift2].
  rewrite toISOString_Date_of_number by assumption. cbn [bind].
  rewrite ndiv_Num by lra. reflexivity.
Qed.

(** Conversely, whatever [timeCalcs] returns is the null pair of a falsy
    velocity made good, or the value above. *)
Lemma timeCalcs_Normal (now : Z) (src : SKPaths) (distance : number)
    (vmg : option number) (t : TimeResult) :
  timeCalcs' now src (Some distance) vmg = Normal t ->
  (falsy vmg = true /\ t = mkTimeResult None None) \/
  (exists d v dm,
     distance = Num d /\ vmg = Some (Num v) /\ v <> 0 /\
     dateMsec Date_parse now src = Num dm /\
     Rabs (dm + IZR (Int_part (d / (v * 0.514444) * 1000))) <= maxTime /\
     t = mkTimeResult
           (Some (Num (IZR (Int_part (d / (v * 0.514444) * 1000)) / 1000)))
           (Some (ISO (trunc
                         (dm + IZR (Int_part (d / (v * 0.514444) * 1000))))))).
Proof.
  destruct vmg as [v|].
  2:{ rewrite timeCalcs_no_vmg. intros [= <-]. left. auto. }
  rewrite timeCalcs_eq. destruct (falsy (Some v)) eqn:Hf.
  { intros [= <-]. left. auto. }
  intros H. right.
  destruct (toISOString _) as [s|e] eqn:Hs; cbn [bind] in H; [|discriminate].
  injection H as <-.
  apply toISOString_Date_of_number_Normal in Hs.
  destruct Hs as (x & Hx & Hr & ->).
  destruct v as [|v]; [discriminate|]. apply falsy_Num in Hf.
  destruct distance as [|d].
  { unfold ttgMsec in Hx. cbn in Hx.
    destruct (dateMsec Date_parse now src); discriminate. }
  rewrite ttgMsec_Num in * by assumption.
  destruct (dateMsec Date_parse now src) as [|dm] eqn:Hdm; [discriminate|].
  cbn [nadd lift2] in Hx. injection Hx as <-.
  exists d, v, dm. rewrite ndiv_Num by lra. repeat split; auto.
Qed.

Lemma timeCalcs_Throw (now : Z) (src : SKPaths) (distance : number)
    (vmg : option number) (e : exn) :
  timeCalcs' now src (Some distance) vmg = Throw e ->
  e = RangeError /\
  exists v, vmg = Some v /\ falsy vmg = false /\
    Date_of_number (dateMsec Date_parse now src + ttgMsec distance v)%js = NaN.
Proof.
  destruct vmg as [v|]; [|rewrite timeCalcs_no_vmg; discriminate].
  rewrite timeCalcs_eq. destruct (falsy (Some v)); [discriminate|].
  destruct (Date_of_number _) eqn:Hdate; cbn [toISOString bind];
    intros H; [|discriminate H].
  injection H as <-. split; [reflexivity|]. exists v. repeat split.
  exact Hdate.
Qed.

Lemma trunc_IZR (z : Z) : trunc (IZR z) = z.
Proof.
  unfold trunc. destruct (Rle_dec 0 (IZR z)).
  - apply Int_part_IZR.
  - rewrite <- opp_IZR, Int_part_IZR. lia.
Qed.

Lemma trunc_lt (x : R) : IZR (trunc x) < x + 1.
Proof.
  unfold trunc. destruct (Rle_dec 0 x).
  - pose proof (floor_le x). lra.
  - rewrite opp_IZR. pose proof (floor_le (- x)). lra.
Qed.



Ltac calcs_result Hv Hd Hs :=
  apply (calcs_valid _ _ _ _ _ _ Hv Hd Hs);
  let gcTime := fresh "gcTime" in
  let rlTime := fresh "rlTime" in
  let Hgc := fresh "Hgc" in
  let Hrl := fresh "Hrl" in
  let r := fresh "r" in
  let Hr := fresh "Hr" in
  intros gcTime rlTime Hgc Hrl r Hr;
  calcs_in Hr Hv Hd Hs;
  rewrite Hgc in Hr; cbn [bind] in Hr;
  rewrite Hrl in Hr; cbn [bind] in Hr;
  injection Hr as <-;
  cbn [gc rl passedPerpendicular_flag calcMethod bearingTrackTrue
       bearingTrackMagnetic crossTrackError distance bearingTrue
       bearingMagnetic velocityMadeGood timeToGo estimatedTimeOfArrival
       previousPoint].

(** On a snapshot that lacks a point, [calcs] returns the empty result
    once the points that are present are constructed. *)
Lemma calcs_missing_outcome (now : Z) (src : SKPaths) :
  navigation_position src = None \/
  navigation_course_nextPoint_position src = None \/
  navigation_course_previousPoint_position src = None ->
  outcome (calcs' now src)
    (fun r => r = mkCourseData emptyResult emptyResult (Some false))
    (rejected new_LatLon src).
Proof.
  intros H. unfold calcs, rejected.
  destruct (navigation_position src) as [v|];
    [destruct (new_LatLon (latitude v) (longitude v)) eqn:Ev|];
    cbn [bind outcome]; eauto 6;
    (destruct (navigation_course_nextPoint_position src) as [d|];
     [destruct (new_LatLon (latitude d) (longitude d)) eqn:Ed|]);
    cbn [bind outcome]; eauto 6;
    (destruct (navigation_course_previousPoint_position src) as [s|];
     [destruct (new_LatLon (latitude s) (longitude s)) eqn:Es|]);
    cbn [bind outcome]; eauto 6.
  destruct H as [H|[H|H]]; discriminate.
Qed.

Lemma calcs_missing_point (now : Z) (src : SKPaths) :
  navigation_position src = None \/
  navigation_course_nextPoint_position src = None \/
  navigation_course_previousPoint_position src = None ->
  accepted' (navigation_position src) ->
  accepted' (navigation_course_nextPoint_position src) ->
  accepted' (navigation_course_previousPoint_position src) ->
  calcs' now src = Normal (mkCourseData emptyResult emptyResult (Some false)).
Proof.
  intros H Hv Hd Hs. pose proof (calcs_missing_outcome now src H) as Ho.
  destruct (calcs' now src) as [r|e]; cbn [outcome] in Ho.
  - rewrite Ho. reflexivity.
  - destruct Ho as (raw & [Hp|[Hp|Hp]] & He);
      [ destruct (Hv raw Hp) as [q Hq]
      | destruct (Hd raw Hp) as [q Hq]
      | destruct (Hs raw Hp) as [q Hq] ];
      congruence.
Qed.

(** C1, as the code has it.  When the vessel position, the destination or
    the start point is absent, the handler's test fails, and [calcs]
    returns the empty result (both branches the empty object, the passage
    flag false) when the library's constructor accepts the points that are
    present.  The constructor runs on them before the test for an absent
    point: what [calcs] does otherwise is to throw what the constructor
    throws. *)
Theorem C1_missing_point_empty_result (now : Z) (src : SKPaths) :
  navigation_position src = None \/
  navigation_course_nextPoint_position src = None \/
  navigation_course_previousPoint_position src = None ->
  parseSKPaths src = false /\
  (accepted' (navigation_position src) ->
   accepted' (navigation_course_nextPoint_position src) ->
   accepted' (navigation_course_previousPoint_position src) ->
   calcs' now src
   = Normal (mkCourseData emptyResult emptyResult (Some false))) /\
  outcome (calcs' now src)
    (fun r => r = mkCourseData emptyResult emptyResult (Some false))
    (rejected new_LatLon src).
Proof.
  intros H. split; [|split].
  - apply parseSKPaths_false. exact H.
  - apply calcs_missing_point. exact H.
  - apply calcs_missing_outcome. exact H.
Qed.

(** C2.  On a valid snapshot, the constructor having made its three
    points, the cross-track error of the great-circle
    branch and of the rhumbline branch of the result are the same value:
    the cross-track distance of the vessel to the track from the start
    point to the destination, computed once. *)
Theorem C2_crossTrackError_shared (now : Z) (src : SKPaths)
    (vessel destination start : LatLon) :
  pointAt' (navigation_position src) vessel ->
  pointAt' (navigation_course_nextPoint_position src) destination ->
  pointAt' (navigation_course_previousPoint_position src) start ->
  outcome (calcs' now src)
    (fun r =>
       crossTrackError (gc r)
       = Some (crossTrackDistanceTo vessel start destination) /\
       crossTrackError (rl r) = crossTrackError (gc r))
    (timeCalcsThrows' now src vessel destination).
Proof.
  intros Hv Hd Hs. calcs_result Hv Hd Hs. split; reflexivity.
Qed.

(** C5.  On a valid snapshot, the constructor having made its three
    points, the velocity made good of each branch is
    cos(bearing - heading) * speed over ground, with the branch's own
    bearing to the destination (great circle or rhumb line, the value of
    its [bearingTrue]); it is null exactly when the true heading or the
    speed over ground is missing. *)
Theorem C5_velocityMadeGood (now : Z) (src : SKPaths)
    (vessel destination start : LatLon) :
  pointAt' (navigation_position src) vessel ->
  pointAt' (navigation_course_nextPoint_position src) destination ->
  pointAt' (navigation_course_previousPoint_position src) start ->
  outcome (calcs' now src)
    (fun r =>
       bearingTrue (gc r)
       = Some (toRadians (initialBearingTo vessel destination)) /\
       bearingTrue (rl r)
       = Some (toRadians (rhumbBearingTo vessel destination)) /\
       (forall heading speed,
          navigation_headingTrue src = Some heading ->
          navigation_speedOverGround src = Some speed ->
          velocityMadeGood (gc r)
          = Some (Math.cos (toRadians (initialBearingTo vessel destination)
                            - heading) * speed)%js /\
          velocityMadeGood (rl r)
          = Some (Math.cos (toRadians (rhumbBearingTo vessel destination)
                            - heading) * speed)%js) /\
       (velocityMadeGood (gc r) = None <->
        navigation_headingTrue src = None \/
        navigation_speedOverGround src = None) /\
       (velocityMadeGood (rl r) = None <->
        navigation_headingTrue src = None \/
        navigation_speedOverGround src = None))
    (timeCalcsThrows' now src vessel destination).
Proof.
  intros Hv Hd Hs. calcs_result Hv Hd Hs. unfold vmg.
  destruct (navigation_headingTrue src) as [h|],
    (navigation_speedOverGround src) as [sog|];
    (split; [reflexivity|]); (split; [reflexivity|]);
    (split;
     [ intros heading speed H1 H2; try discriminate;
       injection H1 as <-; injection H2 as <-; split; reflexivity | ]);
    split;
    (split; [ intros H; try discriminate H; auto
            | intros [H|H]; try discriminate H; reflexivity ]).
Qed.

(** C6.  On a valid snapshot, the constructor having made its three
    points, with a numeric magnetic variation, each of
    the four magnetic bearings (track and vessel bearing, both branches)
    is the true bearing of the same name minus the variation; without a
    magnetic variation the four are null. *)
Theorem C6_magnetic_bearings (now : Z) (src : SKPaths)
    (vessel destination start : LatLon) :
  pointAt' (navigation_position src) vessel ->
  pointAt' (navigation_course_nextPoint_position src) destination ->
  pointAt' (navigation_course_previousPoint_position src) start ->
  outcome (calcs' now src)
    (fun r =>
       magneticFromTrue (navigation_magneticVariation src) (gc r) /\
       magneticFromTrue (navigation_magneticVariation src) (rl r))
    (timeCalcsThrows' now src vessel destination).
Proof.
  intros Hv Hd Hs. calcs_result Hv Hd Hs. unfold magneticFromTrue.
  destruct (navigation_magneticVariation src) as [variation|];
    cbn [bearingTrackTrue bearingTrackMagnetic bearingTrue bearingMagnetic];
    repeat split; eauto.
Qed.


(** With a distance greater than 0 and a negative velocity made good,
    what [timeCalcs] returns is not the null pair: a negative time to go
    and an estimated time of arrival before the timestamp.  It is left by
    the RangeError of [toISOString] when that instant is not a valid
    date. *)
Lemma timeCalcs_negative_vmg (now : Z) (src : SKPaths) (d v : R) :
  0 < d ->
  v < 0 ->
  outcome (timeCalcs' now src (Some (Num d)) (Some (Num v)))
    (fun t =>
       exists (x dm : R) (z : Z),
         dateMsec Date_parse now src = Num dm /\
         ttg t = Some (Num x) /\ x < 0 /\
         eta t = Some (ISO z) /\ IZR z < dm)
    (fun e =>
       e = RangeError /\
       Date_of_number
         (dateMsec Date_parse now src + ttgMsec (Num d) (Num v))%js = NaN).
Proof.
  intros Hd Hv.
  destruct (timeCalcs' now src (Some (Num d)) (Some (Num v)))
    as [t|e] eqn:Ht; cbn [outcome].
  - apply timeCalcs_Normal in Ht.
    destruct Ht as [[Hf _]|(d' & v' & dm & Hd' & Hv' & Hv0 & Hdm & Hr & ->)].
    { assert (falsy (Some (Num v)) = false) by (apply falsy_Num; lra).
      congruence. }
    injection Hd' as <-. injection Hv' as <-.
    cbn [ttg eta].
    set (q := d / (v * 0.514444) * 1000) in *.
    assert (Hq : q < 0).
    { unfold q, Rdiv.
      assert (/ (v * 0.514444) < 0) by (apply Rinv_neg; lra).
      nra. }
    pose proof (floor_le q) as Hfl.
    assert (Hk : (Int_part q <= -1)%Z).
    { assert (IZR (Int_part q) < 0) by lra.
      apply lt_IZR in H. lia. }
    apply IZR_le in Hk.
    pose proof (trunc_lt (dm + IZR (Int_part q))).
    exists (IZR (Int_part q) / 1000), dm, (trunc (dm + IZR (Int_part q))).
    repeat split; auto; lra.
  - apply timeCalcs_Throw in Ht.
    destruct Ht as (-> & v' & [= <-] & _ & H). auto.
Qed.

(** [timeCalcs] returns the null pair exactly for a velocity made good
    that is null, NaN or 0. *)
Lemma timeCalcs_null_pair (now : Z) (src : SKPaths) (distance : number)
    (vmg : option number) :
  timeCalcs' now src (Some distance) vmg = Normal (mkTimeResult None None)
  <-> vmg = None \/ vmg = Some NaN \/ vmg = Some (Num 0).
Proof.
  rewrite <- falsy_spec. split.
  - intros H. apply timeCalcs_Normal in H.
    destruct H as [[Hf _]|(d' & v' & dm & _ & _ & _ & _ & _ & H)];
      [assumption|discriminate].
  - apply timeCalcs_falsy.
Qed.





End WorkerProperties.

(** ** The worker on the sample snapshots *)

Local Abbreviation sample_calcs :=
  (calcs Sample.new_LatLon Sample.distanceTo Sample.initialBearingTo
     Sample.rhumbDistanceTo Sample.rhumbBearingTo Sample.crossTrackDistanceTo
     Sample.Date_parse).

Lemma Sample_point (lat lon : R) :
  pointAt Sample.new_LatLon (Some (mkPosition (Num lat) (Num lon)))
    (mkPosition (Num lat) (Num lon)).
Proof. eexists. split; reflexivity. Qed.

Lemma Sample_accepted (lat lon : R) :
  accepted Sample.new_LatLon (Some (mkPosition (Num lat) (Num lon))).
Proof. intros raw [= <-]. eexists. reflexivity. Qed.

Lemma Sample_accepted_absent : accepted Sample.new_LatLon None.
Proof. intros raw H. discriminate H. Qed.

Lemma Sample_vmg :
  vmg Sample.underWay (toRadians (Num 0)) = Some (Num 1).
Proof.
  unfold vmg, toRadians, Math.PI. cbn [Sample.underWay
    navigation_headingTrue navigation_speedOverGround nmul lift2].
  rewrite ndiv_Num by lra. unfold Math.cos. cbn [nsub nmul lift1 lift2].
  do 2 f_equal. replace (0 * PI / 180 - 0) with 0 by lra.
  rewrite cos_0. lra.
Qed.

Lemma Sample_Int_part : Int_part (1852 / (1 * 0.514444) * 1000) = 3600003%Z.
Proof. symmetry. apply Int_part_spec. split; lra. Qed.

Lemma Sample_timeCalcs (now : Z) :
  Rabs (IZR now + 3600003) <= maxTime ->
  timeCalcs Sample.Date_parse now Sample.underWay
    (Some (Num 1852)) (Some (Num 1))
  = Normal (mkTimeResult (Some (Num 3600.003))
              (Some (ISO (now + 3600003)))).
Proof.
  intros H.
  rewrite (timeCalcs_value _ now _ 1852 1 (IZR now));
    [ | lra | reflexivity | rewrite Sample_Int_part; exact H ].
  rewrite Sample_Int_part, <- plus_IZR, trunc_IZR.
  reflexivity.
Qed.

(** Under way at one knot towards a destination one nautical mile ahead:
    [calcs] returns, with a time to go of 3600.003 s. *)
Lemma Sample_underWay_calcs (now : Z) :
  Rabs (IZR now + 3600003) <= maxTime ->
  exists r,
    sample_calcs now Sample.underWay = Normal r /\
    distance (gc r) = Some (Num 1852) /\
    velocityMadeGood (gc r) = Some (Num 1) /\
    timeToGo (gc r) = Some (Num 3600.003) /\
    estimatedTimeOfArrival (gc r) = Some (ISO (now + 3600003)).
Proof.
  intros H. unfold calcs.
  cbn [Sample.underWay navigation_position
       navigation_course_nextPoint_position
       navigation_course_previousPoint_position
       Sample.vessel Sample.destination Sample.start
       latitude longitude Sample.new_LatLon bind].
  fold Sample.vessel Sample.destination Sample.start. fold Sample.underWay.
  unfold Sample.distanceTo, Sample.initialBearingTo, Sample.rhumbDistanceTo,
    Sample.rhumbBearingTo.
  rewrite !Sample_vmg.
  rewrite !Sample_timeCalcs by exact H. cbn [bind].
  eexists. split; [reflexivity|]. cbn [gc distance velocityMadeGood timeToGo
    estimatedTimeOfArrival ttg eta]. auto.
Qed.

Lemma Sample_maxTime (now : Z) :
  (0 <= now <= 1000)%Z -> Rabs (IZR now + 3600003) <= maxTime.
Proof.
  intros [H1 H2]. apply IZR_le in H1, H2. unfold maxTime.
  rewrite Rabs_right; lra.
Qed.

(** Heading south, away from the destination to the north: the velocity
    made good is the speed over ground, negative. *)
Lemma Sample_vmg_drifting :
  vmg Sample.drifting (toRadians (Num 0)) = Some (Num (-1e-10)).
Proof.
  unfold vmg, toRadians. cbn [Sample.drifting
    navigation_headingTrue navigation_speedOverGround].
  unfold Math.PI. cbn [nmul lift2].
  rewrite ndiv_Num by lra. unfold Math.cos. cbn [nsub nmul lift1 lift2].
  do 2 f_equal. replace (0 * PI / 180 - PI) with (- PI) by lra.
  rewrite cos_neg, cos_PI. lra.
Qed.

(** At 1e-10 knots away from a destination 1852 m off, the arrival
    instant is some 3.6e16 ms before the epoch, which is no date. *)
Lemma Sample_timeCalcs_drifting :
  timeCalcs Sample.Date_parse 0 Sample.drifting
    (Some (Num 1852)) (Some (Num (-1e-10)))
  = Throw RangeError.
Proof.
  rewrite timeCalcs_eq.
  rewrite (proj2 (falsy_Num (-1e-10))) by lra.
  rewrite ttgMsec_Num by lra.
  unfold dateMsec. cbn [Sample.drifting navigation_datetime nadd lift2].
  set (q := 1852 / (-1e-10 * 0.514444) * 1000).
  assert (Hq : q < - maxTime) by (unfold q, maxTime; lra).
  pose proof (floor_le q) as Hfl.
  unfold Date_of_number.
  destruct (Rle_dec (Rabs (0 + IZR (Int_part q))) maxTime) as [Hle|Hgt];
    [|reflexivity].
  exfalso. pose proof (Rle_abs (- (0 + IZR (Int_part q)))) as Ha.
  rewrite Rabs_Ropp in Ha. unfold maxTime in *. lra.
Qed.

Lemma Sample_drifting_calcs : sample_calcs 0 Sample.drifting = Throw RangeError.
Proof.
  unfold calcs.
  cbn [Sample.drifting navigation_position
       navigation_course_nextPoint_position
       navigation_course_previousPoint_position
       Sample.vessel Sample.destination Sample.start
       latitude longitude Sample.new_LatLon bind].
  fold Sample.vessel Sample.destination Sample.start. fold Sample.drifting.
  unfold Sample.distanceTo, Sample.initialBearingTo.
  rewrite !Sample_vmg_drifting, Sample_timeCalcs_drifting.
  reflexivity.
Qed.


(** ** Instances on the sample snapshots *)

Lemma C1_witness :
  (navigation_position Sample.noDestination = None \/
   navigation_course_nextPoint_position Sample.noDestination = None \/
   navigation_course_previousPoint_position Sample.noDestination = None) /\
  accepted Sample.new_LatLon (navigation_position Sample.noDestination) /\
  accepted Sample.new_LatLon
    (navigation_course_nextPoint_position Sample.noDestination) /\
  accepted Sample.new_LatLon
    (navigation_course_previousPoint_position Sample.noDestination) /\
  parseSKPaths Sample.noDestination = false /\
  sample_calcs 0 Sample.noDestination
  = Normal (mkCourseData emptyResult emptyResult (Some false)).
Proof.
  assert (H : navigation_position Sample.noDestination = None \/
              navigation_course_nextPoint_position Sample.noDestination
              = None \/
              navigation_course_previousPoint_position Sample.noDestination
              = None) by (right; left; reflexivity).
  pose proof (Sample_accepted 0 0) as Av.
  pose proof Sample_accepted_absent as Ad.
  pose proof (Sample_accepted (-1 / 60) 0) as As.
  destruct (C1_missing_point_empty_result
              Sample.new_LatLon Sample.distanceTo Sample.initialBearingTo
              Sample.rhumbDistanceTo Sample.rhumbBearingTo
              Sample.crossTrackDistanceTo Sample.Date_parse
              0 Sample.noDestination H) as (Hp & Hr & _).
  split; [exact H|]. split; [exact Av|]. split; [exact Ad|].
  split; [exact As|]. split; [exact Hp|].
  exact (Hr Av Ad As).
Defined.

(** A snapshot without destination whose vessel position has a latitude
    that is not a number: the constructor is run on the position before
    the absence of the destination is tested, and [calcs] throws. *)
Lemma C1_counterexample :
  navigation_course_nextPoint_position Sample.noFix = None /\
  sample_calcs 0 Sample.noFix = Throw TypeError.
Proof. split; reflexivity. Qed.

Lemma C2_witness :
  outcome (sample_calcs 0 Sample.underWay)
    (fun r =>
       crossTrackError (gc r)
       = Some (Sample.crossTrackDistanceTo Sample.vessel Sample.start
                 Sample.destination) /\
       crossTrackError (rl r) = crossTrackError (gc r))
    (timeCalcsThrows Sample.distanceTo Sample.initialBearingTo
       Sample.rhumbDistanceTo Sample.rhumbBearingTo Sample.Date_parse
       0 Sample.underWay Sample.vessel Sample.destination).
Proof.
  exact (C2_crossTrackError_shared
           Sample.new_LatLon
           Sample.distanceTo Sample.initialBearingTo Sample.rhumbDistanceTo
           Sample.rhumbBearingTo Sample.crossTrackDistanceTo Sample.Date_parse
           0 Sample.underWay Sample.vessel Sample.destination Sample.start
           (Sample_point 0 0) (Sample_point (1 / 60) 0)
           (Sample_point (-1 / 60) 0)).
Defined.



Lemma C5_witness :
  outcome (sample_calcs 0 Sample.underWay)
    (fun r =>
       bearingTrue (gc r)
       = Some (toRadians
                 (Sample.initialBearingTo Sample.vessel Sample.destination))
       /\
       bearingTrue (rl r)
       = Some (toRadians
                 (Sample.rhumbBearingTo Sample.vessel Sample.destination))
       /\
       (forall heading speed,
          navigation_headingTrue Sample.underWay = Some heading ->
          navigation_speedOverGround Sample.underWay = Some speed ->
          velocityMadeGood (gc r)
          = Some (Math.cos
                    (toRadians
                       (Sample.initialBearingTo Sample.vessel
                          Sample.destination)
                     - heading) * speed)%js /\
          velocityMadeGood (rl r)
          = Some (Math.cos
                    (toRadians
                       (Sample.rhumbBearingTo Sample.vessel Sample.destination)
                     - heading) * speed)%js) /\
       (velocityMadeGood (gc r) = None <->
        navigation_headingTrue Sample.underWay = None \/
        navigation_speedOverGround Sample.underWay = None) /\
       (velocityMadeGood (rl r) = None <->
        navigation_headingTrue Sample.underWay = None \/
        navigation_speedOverGround Sample.underWay = None))
    (timeCalcsThrows Sample.distanceTo Sample.initialBearingTo
       Sample.rhumbDistanceTo Sample.rhumbBearingTo Sample.Date_parse
       0 Sample.underWay Sample.vessel Sample.destination).
Proof.
  exact (C5_velocityMadeGood
           Sample.new_LatLon
           Sample.distanceTo Sample.initialBearingTo Sample.rhumbDistanceTo
           Sample.rhumbBearingTo Sample.crossTrackDistanceTo Sample.Date_parse
           0 Sample.underWay Sample.vessel Sample.destination Sample.start
           (Sample_point 0 0) (Sample_point (1 / 60) 0)
           (Sample_point (-1 / 60) 0)).
Defined.

Lemma C6_witness :
  outcome (sample_calcs 0 Sample.stamped)
    (fun r =>
       magneticFromTrue (navigation_magneticVariation Sample.stamped) (gc r) /\
       magneticFromTrue (navigation_magneticVariation Sample.stamped) (rl r))
    (timeCalcsThrows Sample.distanceTo Sample.initialBearingTo
       Sample.rhumbDistanceTo Sample.rhumbBearingTo Sample.Date_parse
       0 Sample.stamped Sample.vessel Sample.destination).
Proof.
  exact (C6_magnetic_bearings
           Sample.new_LatLon
           Sample.distanceTo Sample.initialBearingTo Sample.rhumbDistanceTo
           Sample.rhumbBearingTo Sample.crossTrackDistanceTo Sample.Date_parse
           0 Sample.stamped Sample.vessel Sample.destination Sample.start
           (Sample_point 0 0) (Sample_point (1 / 60) 0)
           (Sample_point (-1 / 60) 0)).
Defined.



(** C10.  Where [timeCalcs] returns, a distance greater than 0 and a
    negative velocity made good give a negative time to go and an
    estimated time of arrival before the timestamp, not the null pair,
    which is returned exactly for a velocity made good that is null, NaN
    or 0.  But [timeCalcs], and [calcs] with it, does not always return
    there: on the sample vessel heading away from the destination at
    1e-10 knots the velocity made good is -1e-10 knots, the arrival
    instant is further from the epoch than a date can be, and both throw
    a RangeError. *)
Theorem C10_negative_vmg :
  (vmg Sample.drifting
     (toRadians (Sample.initialBearingTo Sample.vessel Sample.destination))
   = Some (Num (-1e-10)) /\
   timeCalcs Sample.Date_parse 0 Sample.drifting
     (Some (Sample.distanceTo Sample.vessel Sample.destination))
     (Some (Num (-1e-10)))
   = Throw RangeError /\
   sample_calcs 0 Sample.drifting = Throw RangeError) /\
  (forall (Date_parse : string -> number) (now : Z) (src : SKPaths) (d v : R),
     0 < d ->
     v < 0 ->
     outcome (timeCalcs Date_parse now src (Some (Num d)) (Some (Num v)))
       (fun t =>
          exists (x dm : R) (z : Z),
            dateMsec Date_parse now src = Num dm /\
            ttg t = Some (Num x) /\ x < 0 /\
            eta t = Some (ISO z) /\ IZR z < dm)
       (fun e =>
          e = RangeError /\
          Date_of_number
            (dateMsec Date_parse now src + ttgMsec (Num d) (Num v))%js
          = NaN)) /\
  (forall (Date_parse : string -> number) (now : Z) (src : SKPaths)
          (distance : number) (vmg : option number),
     timeCalcs Date_parse now src (Some distance) vmg
     = Normal (mkTimeResult None None)
     <-> vmg = None \/ vmg = Some NaN \/ vmg = Some (Num 0)).
Proof.
  split; [|split].
  - split; [exact Sample_vmg_drifting|].
    split; [exact Sample_timeCalcs_drifting | exact Sample_drifting_calcs].
  - intros Date_parse now src d v Hd Hv.
    apply timeCalcs_negative_vmg; assumption.
  - intros Date_parse now src distance vmg0.
    apply timeCalcs_null_pair.
Qed.

(** ** The passage flag *)

Lemma ngt_Num (x y : R) : (Num x >? Num y)%js = true <-> y < x.
Proof. unfold ngt. apply nlt_Num. Qed.

Lemma ngt_Num_false (x y : R) : (Num x >? Num y)%js = false <-> x <= y.
Proof. unfold ngt. apply nlt_Num_false. Qed.

Lemma sqrt_Num (x : R) : 0 <= x -> Math.sqrt (Num x) = Num (sqrt x).
Proof.
  intros H. unfold Math.sqrt.
  destruct (Rle_dec 0 x); [reflexivity|contradiction].
Qed.

Lemma acos_Num (x : R) : -1 <= x <= 1 -> Math.acos (Num x) = Num (acos x).
Proof.
  intros [H1 H2]. unfold Math.acos.
  destruct (Rle_dec (-1) x); [|contradiction].
  destruct (Rle_dec x 1); [reflexivity|contradiction].
Qed.

Lemma acos_m1 : acos (-1) = PI.
Proof.
  assert (E : acos (Ropp 1) = PI) by (rewrite acos_opp, acos_1; lra).
  exact E.
Qed.

Lemma pow_2_mul (x : number) : Math.pow x 2 = (x * x)%js.
Proof. destruct x as [|r]; [reflexivity|]. cbn. f_equal. ring. Qed.

Lemma degrees_comm (rad : number) :
  ((Num 180 / Math.PI) * rad)%js = ((rad * Num 180) / Math.PI)%js.
Proof.
  unfold Math.PI. pose proof PI_neq0 as HPI.
  rewrite ndiv_Num by assumption.
  destruct rad as [|r]; [reflexivity|].
  cbn [nmul lift2]. rewrite ndiv_Num by assumption.
  f_equal. field. assumption.
Qed.

(** The source's longitude difference is the specification's wherever the
    two unwrap alike. *)
Lemma xDiff_unwrapped (a b : R) :
  unwrappedAlike a b ->
  xDiff (Num a) (Num b) = unwrappedDifference (Num a) (Num b).
Proof.
  unfold unwrappedAlike, xDiff, unwrappedDifference, ngt, nlt.
  intros [H1 H2].
  destruct (Rlt_dec 170 a), (Rlt_dec b 0), (Rlt_dec a (-170)),
    (Rlt_dec 0 b), (Rlt_dec b (-170)), (Rlt_dec 0 a), (Rlt_dec 170 b),
    (Rlt_dec a 0);
    cbn [andb orb nadd nsub lift2]; try (f_equal; lra); exfalso; lra.
Qed.

Lemma passedPerpendicular_by_angle (vessel destination start : LatLon)
    (dlo vlo slo : R) :
  longitude destination = Num dlo ->
  longitude vessel = Num vlo ->
  longitude start = Num slo ->
  unwrappedAlike dlo vlo ->
  unwrappedAlike dlo slo ->
  passedPerpendicular vessel destination start
  = passageByAngle vessel destination start.
Proof.
  intros Hd Hv Hs Av As.
  unfold passedPerpendicular, passageByAngle, angleDegrees, toVector.
  cbn [vx vy length]. rewrite Hd, Hv, Hs.
  rewrite !xDiff_unwrapped by assumption.
  rewrite !pow_2_mul, degrees_comm.
  destruct (_ >? Num 90)%js; reflexivity.
Qed.

(** A vector whose origin is not beyond 170 degrees east or west. *)
Lemma toVector_plain (la1 lo1 la2 lo2 : R) :
  -170 <= lo1 <= 170 ->
  toVector (mkPosition (Num la1) (Num lo1)) (mkPosition (Num la2) (Num lo2))
  = mkVector (Num (lo2 - lo1)) (Num (la2 - la1))
      (Num (sqrt ((lo2 - lo1) * (lo2 - lo1) + (la2 - la1) * (la2 - la1)))).
Proof.
  intros [H1 H2]. unfold toVector, xDiff. cbn [longitude latitude].
  rewrite (proj2 (ngt_Num_false lo1 170)) by lra.
  rewrite (proj2 (nlt_Num_false lo1 (-170))) by lra.
  cbn [andb]. rewrite !pow_2_mul. cbn [nsub nadd nmul lift2].
  rewrite sqrt_Num; [reflexivity|].
  pose proof (Rle_0_sqr (lo2 - lo1)). pose proof (Rle_0_sqr (la2 - la1)).
  unfold Rsqr in *. lra.
Qed.

(** The flag from two vectors of known lengths. *)
Lemma passedPerpendicular_value (vessel destination start : LatLon)
    (ax ay la bx by_ lb : R) :
  toVector destination vessel = mkVector (Num ax) (Num ay) (Num la) ->
  toVector destination start = mkVector (Num bx) (Num by_) (Num lb) ->
  la * lb <> 0 ->
  -1 <= (ax * bx + ay * by_) / (la * lb) <= 1 ->
  passedPerpendicular vessel destination start
  = if Rlt_dec 90 (180 / PI * acos ((ax * bx + ay * by_) / (la * lb)))
    then true else false.
Proof.
  intros Hva Hvb Hl Hr. unfold passedPerpendicular.
  rewrite Hva, Hvb. cbn [vx vy length nmul nadd lift2].
  rewrite ndiv_Num by assumption. rewrite acos_Num by assumption.
  unfold Math.PI. rewrite ndiv_Num by apply PI_neq0.
  cbn [nmul lift2]. unfold ngt, nlt.
  destruct (Rlt_dec 90 _); reflexivity.
Qed.

Lemma sqrt_sq (x : R) : 0 <= x -> sqrt (x * x) = x.
Proof. intros H. apply sqrt_square. exact H. Qed.

(** Start, destination and vessel on one parallel or one meridian of the
    plane, the vessel [t] degrees from the start and the destination 10:
    the flag is true 5 degrees beyond the destination and false 5 degrees
    before it. *)
Lemma passed_beyond (x : bool) :
  let p (t : R) :=
    if x then mkPosition (Num 0) (Num t) else mkPosition (Num t) (Num 0) in
  passedPerpendicular (p 15) (p 10) (p 0) = true /\
  passedPerpendicular (p 5) (p 10) (p 0) = false.
Proof.
  intros p. pose proof PI_RGT_0 as HPI. split.
  - rewrite (passedPerpendicular_value _ _ _
               (if x then 15 - 10 else 0 - 0) (if x then 0 - 0 else 15 - 10) 5
               (if x then 0 - 10 else 0 - 0) (if x then 0 - 0 else 0 - 10) 10).
    + replace ((_ * _ + _ * _) / (5 * 10)) with (-1) by (destruct x; lra).
      rewrite acos_m1. replace (180 / PI * PI) with 180 by (field; lra).
      destruct (Rlt_dec 90 180); [reflexivity|lra].
    + unfold p. destruct x; rewrite toVector_plain by lra; do 2 f_equal;
        (replace (_ + _) with (5 * 5) by lra); apply sqrt_sq; lra.
    + unfold p. destruct x; rewrite toVector_plain by lra; do 2 f_equal;
        (replace (_ + _) with (10 * 10) by lra); apply sqrt_sq; lra.
    + lra.
    + replace ((_ * _ + _ * _) / (5 * 10)) with (-1) by (destruct x; lra). lra.
  - rewrite (passedPerpendicular_value _ _ _
               (if x then 5 - 10 else 0 - 0) (if x then 0 - 0 else 5 - 10) 5
               (if x then 0 - 10 else 0 - 0) (if x then 0 - 0 else 0 - 10) 10).
    + replace ((_ * _ + _ * _) / (5 * 10)) with 1 by (destruct x; lra).
      rewrite acos_1. replace (180 / PI * 0) with 0 by (field; lra).
      destruct (Rlt_dec 90 0); [lra|reflexivity].
    + unfold p. destruct x; rewrite toVector_plain by lra; do 2 f_equal;
        (replace (_ + _) with (5 * 5) by lra); apply sqrt_sq; lra.
    + unfold p. destruct x; rewrite toVector_plain by lra; do 2 f_equal;
        (replace (_ + _) with (10 * 10) by lra); apply sqrt_sq; lra.
    + lra.
    + replace ((_ * _ + _ * _) / (5 * 10)) with 1 by (destruct x; lra). lra.
Qed.

Lemma acos_gt_half_pi (x : R) :
  -1 <= x <= 1 -> (PI / 2 < acos x <-> x < 0).
Proof.
  intros Hx. pose proof (acos_bound x) as [Hb1 Hb2].
  pose proof (cos_acos x Hx) as Hc. pose proof PI_RGT_0 as HPI.
  split; intros H.
  - rewrite <- Hc. apply cos_lt_0; lra.
  - destruct (Rlt_dec (PI / 2) (acos x)) as [|Hn]; [assumption|].
    assert (0 <= cos (acos x)) by (apply cos_ge_0; lra). lra.
Qed.

Lemma cauchy_schwarz (ax ay bx by_ : R) :
  Rabs (ax * bx + ay * by_)
  <= sqrt (ax * ax + ay * ay) * sqrt (bx * bx + by_ * by_).
Proof.
  assert (Ha : 0 <= ax * ax + ay * ay) by nra.
  assert (Hb : 0 <= bx * bx + by_ * by_) by nra.
  rewrite <- sqrt_mult by assumption.
  rewrite <- sqrt_Rsqr_abs. apply sqrt_le_1_alt. unfold Rsqr.
  pose proof (Rle_0_sqr (ax * by_ - ay * bx)) as H. unfold Rsqr in H. nra.
Qed.

(** With finite coordinates, the flag is true exactly when the dot
    product of the vector from the destination to the vessel and the
    vector from the destination to the start point is negative. *)
Lemma passedPerpendicular_dot (vessel destination start : LatLon)
    (ax ay bx by_ : R) :
  vx (toVector destination vessel) = Num ax ->
  vy (toVector destination vessel) = Num ay ->
  vx (toVector destination start) = Num bx ->
  vy (toVector destination start) = Num by_ ->
  (passedPerpendicular vessel destination start = true
   <-> ax * bx + ay * by_ < 0).
Proof.
  unfold passedPerpendicular, toVector. cbn [vx vy length].
  intros -> -> -> ->. rewrite !pow_2_mul. cbn [nmul nadd lift2].
  assert (Ha : 0 <= ax * ax + ay * ay) by nra.
  assert (Hb : 0 <= bx * bx + by_ * by_) by nra.
  rewrite !sqrt_Num by assumption. cbn [nmul lift2].
  pose proof (cauchy_schwarz ax ay bx by_) as Hcs.
  set (la := sqrt (ax * ax + ay * ay)) in *.
  set (lb := sqrt (bx * bx + by_ * by_)) in *.
  set (dot := ax * bx + ay * by_) in *.
  destruct (Req_dec_T (la * lb) 0) as [Hz|Hnz].
  - rewrite Hz, ndiv_zero. cbn [Math.acos].
    destruct (Num 180 / Math.PI)%js; cbn; (split; [discriminate|]);
      rewrite Hz in Hcs;
      intros Hd; pose proof (Rabs_pos dot); rewrite Rabs_left in Hcs; lra.
  - rewrite (ndiv_Num dot) by assumption.
    assert (Hpos : 0 < la * lb).
    { pose proof (sqrt_pos (ax * ax + ay * ay)).
      pose proof (sqrt_pos (bx * bx + by_ * by_)).
      fold la lb in H, H0. nra. }
    assert (Hr : -1 <= dot / (la * lb) <= 1).
    { assert (Hd1 : dot <= la * lb) by (pose proof (Rle_abs dot); lra).
      assert (Hd2 : - (la * lb) <= dot).
      { pose proof (Rle_abs (- dot)) as H. rewrite Rabs_Ropp in H. lra. }
      assert (Hi : 0 < / (la * lb)) by (apply Rinv_0_lt_compat; assumption).
      assert (E : la * lb * / (la * lb) = 1) by (apply Rinv_r; assumption).
      unfold Rdiv. split; nra. }
    rewrite acos_Num by assumption.
    unfold Math.PI. pose proof PI_RGT_0 as HPI.
    rewrite ndiv_Num by lra. cbn [nmul lift2]. unfold ngt, nlt.
    pose proof (acos_gt_half_pi _ Hr) as Hac.
    assert (Hsign : dot / (la * lb) < 0 <-> dot < 0).
    { unfold Rdiv. assert (0 < / (la * lb)) by (apply Rinv_0_lt_compat; lra).
      split; intros; nra. }
    assert (Hdeg : 90 < 180 / PI * acos (dot / (la * lb))
                   <-> PI / 2 < acos (dot / (la * lb))).
    { replace (180 / PI * acos (dot / (la * lb)))
        with (acos (dot / (la * lb)) * (180 / PI)) by (field; lra).
      assert (0 < 180 / PI) by (apply Rdiv_lt_0_compat; lra).
      assert (E : 90 = PI / 2 * (180 / PI)) by (field; lra).
      split; intros Hlt.
      - rewrite E in Hlt at 1. apply Rmult_lt_reg_r in Hlt; assumption.
      - rewrite E at 1. apply Rmult_lt_compat_r; assumption. }
    destruct (Rlt_dec 90 _) as [Hlt|Hge]; split; intros H;
      try reflexivity; try discriminate; tauto.
Qed.

Lemma xDiff_antimeridian : xDiff (Num 179) (Num (-179)) = Num 2.
Proof.
  unfold xDiff.
  rewrite (proj2 (ngt_Num 179 170)) by lra.
  rewrite (proj2 (nlt_Num (-179) 0)) by lra.
  cbn. f_equal. lra.
Qed.

(** Two vectors of the plane that point opposite ways along the
    parallel make an angle of 180 degrees. *)
Lemma angleDegrees_opposite (a b : R) :
  0 < a -> 0 < b ->
  angleDegrees (Num a) (Num 0) (Num (- b)) (Num 0) = Num 180.
Proof.
  intros Ha Hb. unfold angleDegrees. cbn [nmul nadd lift2].
  rewrite !sqrt_Num by nra.
  replace (a * a + 0 * 0) with (a * a) by lra.
  replace (- b * - b + 0 * 0) with (b * b) by lra.
  rewrite !sqrt_sq by lra. cbn [nmul lift2].
  rewrite ndiv_Num by nra.
  replace ((a * - b + 0 * 0) / (a * b)) with (-1) by (field; lra).
  rewrite acos_Num by lra. rewrite acos_m1.
  unfold Math.PI. pose proof PI_RGT_0 as HPI. cbn [nmul lift2].
  rewrite ndiv_Num by lra. f_equal. field. lra.
Qed.

(** The vessel 16 degrees past a destination at longitude 169, on the
    other side of the antimeridian: the source takes the long way round
    from the destination to the vessel, 344 degrees westwards, and the
    flag is false; the specification takes the 16 degrees eastwards, and
    its test is true. *)
Lemma passed_across_antimeridian :
  let vessel := mkPosition (Num 0) (Num (-175)) in
  let destination := mkPosition (Num 0) (Num 169) in
  let start := mkPosition (Num 0) (Num 160) in
  vx (toVector destination vessel) = Num (-344) /\
  unwrappedDifference (longitude destination) (longitude vessel) = Num 16 /\
  passedPerpendicular vessel destination start = false /\
  passageByAngle vessel destination start = true.
Proof.
  intros vessel destination start.
  assert (Hva : toVector destination vessel
                = mkVector (Num (-175 - 169)) (Num (0 - 0))
                    (Num (sqrt ((-175 - 169) * (-175 - 169)
                                + (0 - 0) * (0 - 0)))))
    by (apply toVector_plain; lra).
  assert (Hvb : toVector destination start
                = mkVector (Num (160 - 169)) (Num (0 - 0))
                    (Num (sqrt ((160 - 169) * (160 - 169)
                                + (0 - 0) * (0 - 0)))))
    by (apply toVector_plain; lra).
  assert (Hu : unwrappedDifference (Num 169) (Num (-175)) = Num 16).
  { unfold unwrappedDifference.
    rewrite (proj2 (ngt_Num_false 169 170)) by lra.
    rewrite (proj2 (nlt_Num (-175) (-170))) by lra.
    rewrite (proj2 (ngt_Num 169 0)) by lra.
    cbn. f_equal. lra. }
  assert (Hu' : unwrappedDifference (Num 169) (Num 160) = Num (Ropp 9)).
  { unfold unwrappedDifference.
    rewrite (proj2 (ngt_Num_false 169 170)) by lra.
    rewrite (proj2 (nlt_Num_false 160 (-170))) by lra.
    rewrite (proj2 (nlt_Num_false 169 (-170))) by lra.
    rewrite (proj2 (ngt_Num_false 160 170)) by lra.
    cbn. f_equal. lra. }
  split; [|split; [exact Hu|split]].
  - rewrite Hva. cbn [vx]. f_equal. lra.
  - destruct (passedPerpendicular vessel destination start) eqn:E;
      [|reflexivity].
    apply (passedPerpendicular_dot vessel destination start
             (-175 - 169) (0 - 0) (160 - 169) (0 - 0)) in E;
      try (rewrite ?Hva, ?Hvb; reflexivity).
    lra.
  - unfold passageByAngle. cbn [latitude longitude vessel destination start].
    rewrite Hu, Hu'. cbn [nsub lift2].
    replace (0 - 0) with 0 by lra.
    rewrite angleDegrees_opposite by lra.
    apply ngt_Num. lra.
Qed.

Section PassageFlag.

Variable new_LatLon : number -> number -> completion LatLon.
Variable distanceTo : LatLon -> LatLon -> number.
Variable initialBearingTo : LatLon -> LatLon -> number.
Variable rhumbDistanceTo : LatLon -> LatLon -> number.
Variable rhumbBearingTo : LatLon -> LatLon -> number.
Variable crossTrackDistanceTo : LatLon -> LatLon -> LatLon -> number.
Variable Date_parse : string -> number.

(** The passage flag of a result is [passedPerpendicular] of the three
    points as the constructor made them. *)
Lemma calcs_passage_flag (now : Z) (src : SKPaths)
    (vessel destination start : LatLon) :
  pointAt new_LatLon (navigation_position src) vessel ->
  pointAt new_LatLon (navigation_course_nextPoint_position src) destination ->
  pointAt new_LatLon (navigation_course_previousPoint_position src) start ->
  outcome
    (calcs new_LatLon distanceTo initialBearingTo rhumbDistanceTo
       rhumbBearingTo crossTrackDistanceTo Date_parse now src)
    (fun r =>
       passedPerpendicular_flag r
       = Some (passedPerpendicular vessel destination start))
    (timeCalcsThrows distanceTo initialBearingTo rhumbDistanceTo
       rhumbBearingTo Date_parse now src vessel destination).
Proof.
  intros Hv Hd Hs.
  apply (calcs_valid _ _ _ _ _ _ _ _ _ _ _ _ _ Hv Hd Hs).
  intros gcTime rlTime Hgc Hrl r Hr.
  calcs_in Hr Hv Hd Hs.
  rewrite Hgc in Hr; cbn [bind] in Hr. rewrite Hrl in Hr; cbn [bind] in Hr.
  injection Hr as <-. reflexivity.
Qed.

End PassageFlag.

(** The sample library on the leg towards the antimeridian: [calcs]
    returns, with the passage flag false. *)
Lemma Sample_past169_calcs :
  exists r,
    sample_calcs 0 Sample.past169 = Normal r /\
    passedPerpendicular_flag r = Some false.
Proof.
  pose proof (calcs_passage_flag
                Sample.new_LatLon Sample.distanceTo Sample.initialBearingTo
                Sample.rhumbDistanceTo Sample.rhumbBearingTo
                Sample.crossTrackDistanceTo Sample.Date_parse
                0 Sample.past169 _ _ _
                (Sample_point 0 (-175)) (Sample_point 0 169)
                (Sample_point 0 160)) as H.
  destruct (sample_calcs 0 Sample.past169) as [r|e] eqn:Hr;
    cbn [outcome] in H.
  - exists r. split; [reflexivity|].
    rewrite H. f_equal. apply passed_across_antimeridian.
  - exfalso. destruct H as [H|H]; cbn in H; discriminate H.
Qed.

(** C3.  The passage flag of a result is [passedPerpendicular] of the
    three points.  That is the test "the angle at the destination between
    the vessel and the start point exceeds 90 degrees" of the
    specification (dot product formula, degrees, equirectangular plane)
    wherever the source and the specification unwrap the longitude
    differences alike: the source unwraps by 360 degrees when the origin
    of the vector, the destination, is beyond 170 degrees east or west and
    the other longitude is of the other sign, and not when it is the
    other longitude that is beyond 170 degrees.  With the destination at
    longitude 179 and the vessel at -179 the longitude difference is 2,
    where the plain difference is -358; with start, destination and
    vessel at 0, 10 and 15 degrees along a parallel (or a meridian) the
    flag is true, and with the vessel at 5 it is false.  With start,
    destination and vessel at longitudes 160, 169 and -175 the vessel is
    16 degrees past the destination: the specification's test is true,
    and the flag is false. *)
Theorem C3_passedPerpendicular :
  (forall (new_LatLon : number -> number -> completion LatLon)
          (distanceTo initialBearingTo rhumbDistanceTo rhumbBearingTo :
             LatLon -> LatLon -> number)
          (crossTrackDistanceTo : LatLon -> LatLon -> LatLon -> number)
          (Date_parse : string -> number)
          (now : Z) (src : SKPaths) (vessel destination start : LatLon),
     pointAt new_LatLon (navigation_position src) vessel ->
     pointAt new_LatLon (navigation_course_nextPoint_position src)
       destination ->
     pointAt new_LatLon (navigation_course_previousPoint_position src)
       start ->
     outcome
       (calcs new_LatLon distanceTo initialBearingTo rhumbDistanceTo
          rhumbBearingTo crossTrackDistanceTo Date_parse now src)
       (fun r =>
          passedPerpendicular_flag r
          = Some (passedPerpendicular vessel destination start))
       (timeCalcsThrows distanceTo initialBearingTo rhumbDistanceTo
          rhumbBearingTo Date_parse now src vessel destination)) /\
  (forall (vessel destination start : LatLon) (dlo vlo slo : R),
     longitude destination = Num dlo ->
     longitude vessel = Num vlo ->
     longitude start = Num slo ->
     unwrappedAlike dlo vlo ->
     unwrappedAlike dlo slo ->
     passedPerpendicular vessel destination start
     = passageByAngle vessel destination start) /\
  (forall lat lat' : number,
     vx (toVector (mkPosition lat (Num 179)) (mkPosition lat' (Num (-179))))
     = Num 2 /\
     unwrappedDifference (Num 179) (Num (-179)) = Num 2 /\
     (Num (-179) - Num 179)%js = Num (-358)) /\
  (passedPerpendicular (mkPosition (Num 0) (Num 15))
     (mkPosition (Num 0) (Num 10)) (mkPosition (Num 0) (Num 0)) = true /\
   passedPerpendicular (mkPosition (Num 0) (Num 5))
     (mkPosition (Num 0) (Num 10)) (mkPosition (Num 0) (Num 0)) = false) /\
  (passedPerpendicular (mkPosition (Num 15) (Num 0))
     (mkPosition (Num 10) (Num 0)) (mkPosition (Num 0) (Num 0)) = true /\
   passedPerpendicular (mkPosition (Num 5) (Num 0))
     (mkPosition (Num 10) (Num 0)) (mkPosition (Num 0) (Num 0)) = false) /\
  (vx (toVector (mkPosition (Num 0) (Num 169))
         (mkPosition (Num 0) (Num (-175)))) = Num (-344) /\
   unwrappedDifference (Num 169) (Num (-175)) = Num 16 /\
   passedPerpendicular (mkPosition (Num 0) (Num (-175)))
     (mkPosition (Num 0) (Num 169)) (mkPosition (Num 0) (Num 160)) = false /\
   passageByAngle (mkPosition (Num 0) (Num (-175)))
     (mkPosition (Num 0) (Num 169)) (mkPosition (Num 0) (Num 160)) = true /\
   exists r,
     sample_calcs 0 Sample.past169 = Normal r /\
     passedPerpendicular_flag r = Some false).
Proof.
  split; [exact calcs_passage_flag|].
  split; [exact passedPerpendicular_by_angle|].
  split; [|split; [exact (passed_beyond true)|
                   split; [exact (passed_beyond false)|]]].
  - intros lat lat'. split; [|split].
    + unfold toVector. cbn [vx longitude]. exact xDiff_antimeridian.
    + rewrite <- xDiff_unwrapped by (unfold unwrappedAlike; lra).
      exact xDiff_antimeridian.
    + cbn. f_equal. lra.
  - destruct passed_across_antimeridian as (H1 & H2 & H3 & H4).
    split; [exact H1|]. split; [exact H2|]. split; [exact H3|].
    split; [exact H4|]. exact Sample_past169_calcs.
Qed.

(** ** The handlers on stale messages *)

Section HandlerProperties.

Variable new_LatLon : number -> number -> completion LatLon.
Variable distanceTo : LatLon -> LatLon -> number.
Variable initialBearingTo : LatLon -> LatLon -> number.
Variable rhumbDistanceTo : LatLon -> LatLon -> number.
Variable rhumbBearingTo : LatLon -> LatLon -> number.
Variable crossTrackDistanceTo : LatLon -> LatLon -> LatLon -> number.
Variable Date_parse : string -> number.

Variable LegacyCourseData : Type.
Variable legacy_calcs : Z -> Legacy.SKPaths -> completion LegacyCourseData.
Variable legacy_invalidated : LegacyCourseData.

Local Abbreviation calcs' :=
  (calcs new_LatLon distanceTo initialBearingTo rhumbDistanceTo rhumbBearingTo
     crossTrackDistanceTo Date_parse).
Local Abbreviation onMessage' :=
  (onMessage new_LatLon distanceTo initialBearingTo rhumbDistanceTo
     rhumbBearingTo crossTrackDistanceTo Date_parse).
Local Abbreviation runWorker' :=
  (runWorker new_LatLon distanceTo initialBearingTo rhumbDistanceTo
     rhumbBearingTo crossTrackDistanceTo Date_parse).
Local Abbreviation legacy_onMessage :=
  (Legacy.onMessage LegacyCourseData legacy_calcs legacy_invalidated).
Local Abbreviation legacy_runWorker :=
  (Legacy.runWorker LegacyCourseData legacy_calcs legacy_invalidated).

Lemma onMessage_stale (now : Z) (message : SKPaths) (activeDest : bool) :
  parseSKPaths message = false ->
  onMessage' now message activeDest
  = Normal (if activeDest then Some invalidated else None, false).
Proof.
  intros H. unfold onMessage. rewrite H. destruct activeDest; reflexivity.
Qed.

Lemma onMessage_valid (now : Z) (message : SKPaths) (activeDest : bool)
    (r : CourseData) :
  parseSKPaths message = true ->
  calcs' now message = Normal r ->
  onMessage' now message activeDest = Normal (Some r, true).
Proof.
  intros H Hr. unfold onMessage. rewrite H, Hr. reflexivity.
Qed.

Lemma runWorker_stale_inactive (messages : list (Z * SKPaths)) :
  Forall stale messages ->
  runWorker' false messages
  = Normal (repeat None (List.length messages), false).
Proof.
  induction 1 as [|[now m] rest Hm Hrest IH]; [reflexivity|].
  cbn [runWorker]. unfold stale in Hm. cbn [snd] in Hm.
  rewrite onMessage_stale by assumption. cbn [bind snd fst].
  rewrite IH. reflexivity.
Qed.

Lemma legacy_parse_stale (m : Legacy.SKPaths) (c : Z) :
  fst (Legacy.parseSKPaths m 0%Z) = false ->
  Legacy.parseSKPaths m c = (false, (c + 1)%Z).
Proof.
  unfold Legacy.parseSKPaths.
  destruct (Legacy.navigation_position m), (Legacy.nextPoint_position m),
    (Legacy.previousPoint_position m); cbn; congruence.
Qed.

Lemma legacy_onMessage_stale (now : Z) (m : Legacy.SKPaths) (c : Z) :
  fst (Legacy.parseSKPaths m 0%Z) = false ->
  (0 <= c <= 20)%Z ->
  legacy_onMessage now m c
  = Normal (legacy_posted legacy_invalidated c 1, ((c + 1) mod 21)%Z).
Proof.
  intros Hm Hc. unfold Legacy.onMessage, legacy_posted.
  rewrite (legacy_parse_stale m c Hm). unfold Legacy.MAX_STALE_COUNT.
  change (Z.of_nat 1) with 1%Z.
  destruct (Z.eq_dec c 20) as [->|Hne].
  - reflexivity.
  - rewrite Z.mod_small by lia.
    destruct (c + 1 >? 20)%Z eqn:Hgt; [lia|].
    destruct (c + 1 =? 0)%Z eqn:Hz; [lia|]. reflexivity.
Qed.

Lemma legacy_runWorker_stale (messages : list (Z * Legacy.SKPaths)) :
  Forall legacy_stale messages ->
  forall c : Z,
    (0 <= c <= 20)%Z ->
    legacy_runWorker c messages
    = Normal (map (legacy_posted legacy_invalidated c)
                (seq 1 (List.length messages)),
              ((c + Z.of_nat (List.length messages)) mod 21)%Z).
Proof.
  induction 1 as [|[now m] rest Hm Hrest IH]; intros c Hc.
  - cbn. rewrite Z.add_0_r, Z.mod_small by lia. reflexivity.
  - cbn [Legacy.runWorker List.length seq map].
    unfold legacy_stale in Hm. cbn [snd] in Hm.
    rewrite legacy_onMessage_stale by assumption. cbn [bind snd fst].
    rewrite IH by (pose proof (Z.mod_pos_bound (c + 1) 21); lia).
    cbn [bind fst snd].
    do 2 f_equal.
    + f_equal. rewrite <- (seq_shift (List.length rest) 1), map_map.
      apply map_ext. intros i.
      unfold legacy_posted. rewrite Zplus_mod_idemp_l.
      replace (c + 1 + Z.of_nat i)%Z with (c + Z.of_nat (S i))%Z by lia.
      reflexivity.
    + rewrite Zplus_mod_idemp_l. f_equal. lia.
Qed.

Lemma runWorker_stale_active (m : Z * SKPaths) (messages : list (Z * SKPaths)) :
  stale m ->
  Forall stale messages ->
  runWorker' true (m :: messages)
  = Normal (Some invalidated :: repeat None (List.length messages), false).
Proof.
  intros Hm Hrest. destruct m as [now m]. cbn [runWorker].
  unfold stale in Hm. cbn [snd] in Hm.
  rewrite onMessage_stale by assumption. cbn [bind snd fst].
  rewrite runWorker_stale_inactive by assumption. reflexivity.
Qed.

(** C7, as the code has it.  The handler keeps one flag, [activeDest],
    and no counter: on a run of stale messages it posts the invalidating
    result once, on the first of them, when a destination was active, and
    nothing on the others; it posts nothing when no destination was
    active; a valid message whose result is computed is posted and sets
    the flag.  The earlier revision counts the stale messages, whether a
    destination was ever active or not: it posts the invalidating result
    each time the count passes [MAX_STALE_COUNT] = 20, that is on every
    21st stale message in a row, and starts counting again; a valid
    message resets the count. *)
Theorem C7_stale_messages (messages : list (Z * SKPaths))
    (legacy_messages : list (Z * Legacy.SKPaths)) :
  Forall stale messages ->
  Forall legacy_stale legacy_messages ->
  (runWorker' false messages
   = Normal (repeat None (List.length messages), false)) /\
  (forall m, stale m ->
     runWorker' true (m :: messages)
     = Normal (Some invalidated :: repeat None (List.length messages), false))
  /\
  (forall now message activeDest r,
     parseSKPaths message = true ->
     calcs' now message = Normal r ->
     onMessage' now message activeDest = Normal (Some r, true)) /\
  (forall now message activeDest,
     parseSKPaths message = false ->
     onMessage' now message activeDest
     = Normal (if activeDest then Some invalidated else None, false)) /\
  (forall c : Z,
     (0 <= c <= 20)%Z ->
     legacy_runWorker c legacy_messages
     = Normal (map (legacy_posted legacy_invalidated c)
                 (seq 1 (List.length legacy_messages)),
               ((c + Z.of_nat (List.length legacy_messages)) mod 21)%Z)) /\
  (forall now message c r,
     fst (Legacy.parseSKPaths message 0%Z) = true ->
     legacy_calcs now message = Normal r ->
     legacy_onMessage now message c = Normal (Some r, 0%Z)) /\
  (forall now message c,
     fst (Legacy.parseSKPaths message 0%Z) = false ->
     legacy_onMessage now message c
     = Normal (if (c + 1 >? Legacy.MAX_STALE_COUNT)%Z
               then (Some legacy_invalidated, 0%Z)
               else (None, (c + 1)%Z))).
Proof.
  intros Hs Hl. repeat split.
  - apply runWorker_stale_inactive. exact Hs.
  - intros m Hm. apply runWorker_stale_active; assumption.
  - intros now message activeDest r. apply onMessage_valid.
  - intros now message activeDest. apply onMessage_stale.
  - apply legacy_runWorker_stale. exact Hl.
  - intros now message c r Hp Hr. unfold Legacy.onMessage.
    revert Hp. unfold Legacy.parseSKPaths.
    destruct (Legacy.navigation_position message),
      (Legacy.nextPoint_position message),
      (Legacy.previousPoint_position message); cbn; try discriminate.
    intros _. rewrite Hr. reflexivity.
  - intros now message c Hp. unfold Legacy.onMessage.
    rewrite (legacy_parse_stale message c Hp).
    destruct (c + 1 >? Legacy.MAX_STALE_COUNT)%Z; reflexivity.
Qed.

End HandlerProperties.

Lemma C7_witness :
  Forall stale [(1%Z, Sample.noDestination); (2%Z, Sample.noDestination)] /\
  Forall legacy_stale (repeat (0%Z, Sample.legacyStale) 21) /\
  runWorker Sample.new_LatLon Sample.distanceTo Sample.initialBearingTo
    Sample.rhumbDistanceTo Sample.rhumbBearingTo Sample.crossTrackDistanceTo
    Sample.Date_parse
    true
    [(0%Z, Sample.noDestination); (1%Z, Sample.noDestination);
     (2%Z, Sample.noDestination)]
  = Normal ([Some invalidated; None; None], false) /\
  Legacy.runWorker CourseData (fun _ _ => Normal invalidated) invalidated
    Legacy.staleCounter_init (repeat (0%Z, Sample.legacyStale) 21)
  = Normal (map (legacy_posted invalidated 0) (seq 1 21), 0%Z).
Proof.
  assert (Hs : Forall stale
                 [(1%Z, Sample.noDestination); (2%Z, Sample.noDestination)])
    by (repeat constructor).
  assert (Hl : Forall legacy_stale (repeat (0%Z, Sample.legacyStale) 21))
    by (repeat constructor).
  split; [exact Hs|]. split; [exact Hl|].
  pose proof (C7_stale_messages
                Sample.new_LatLon
                Sample.distanceTo Sample.initialBearingTo
                Sample.rhumbDistanceTo Sample.rhumbBearingTo
                Sample.crossTrackDistanceTo Sample.Date_parse
                CourseData (fun _ _ => Normal invalidated) invalidated
                _ _ Hs Hl) as (_ & Hactive & _ & _ & Hlegacy & _).
  split.
  - exact (Hactive (0%Z, Sample.noDestination) eq_refl).
  - exact (Hlegacy 0%Z ltac:(lia)).
Defined.

(** The earlier revision, started with no destination ever active, posts
    the invalidating result on the 21st stale message, and again on the
    42nd.  The handler posts it on the first stale message after a valid
    one, without counting. *)
Lemma C7_counterexample :
  Legacy.runWorker CourseData (fun _ _ => Normal invalidated) invalidated
    Legacy.staleCounter_init (repeat (0%Z, Sample.legacyStale) 21)
  = Normal (repeat None 20 ++ [Some invalidated], 0%Z) /\
  Legacy.runWorker CourseData (fun _ _ => Normal invalidated) invalidated
    Legacy.staleCounter_init (repeat (0%Z, Sample.legacyStale) 42)
  = Normal (repeat None 20 ++ [Some invalidated]
            ++ repeat None 20 ++ [Some invalidated], 0%Z) /\
  exists r,
    runWorker Sample.new_LatLon Sample.distanceTo Sample.initialBearingTo
      Sample.rhumbDistanceTo Sample.rhumbBearingTo Sample.crossTrackDistanceTo
      Sample.Date_parse
      activeDest_init
      [(0%Z, Sample.positionsOnly); (1%Z, Sample.noDestination);
       (2%Z, Sample.noDestination)]
    = Normal ([Some r; Some invalidated; None], false).
Proof.
  split; [reflexivity|]. split; [reflexivity|].
  eexists. reflexivity.
Qed.

(** ** The watcher *)

Lemma observe_spec (w : Watcher.t) (v : number) :
  Watcher.observe w v
  = (Watcher.mkWatcher (Watcher.isInRange w v) (Watcher.rangeMin w)
       (Watcher.rangeMax w) v,
     if Bool.eqb (Watcher.isInRange w v) (Watcher.inside w) then None
     else Some (Watcher.mkWatchEvent
                  (if Watcher.isInRange w v then Watcher.enter
                   else Watcher.exit) v)).
Proof.
  unfold Watcher.observe.
  destruct (Watcher.isInRange w v), (Watcher.inside w); reflexivity.
Qed.

Lemma step_alternating (w : Watcher.t) (o : Watcher.op)
    (ks : list Watcher.EventType) :
  Watcher.alternating (Watcher.inside (fst (Watcher.step w o))) ks = true ->
  Watcher.alternating (Watcher.inside w)
    (match snd (Watcher.step w o) with
     | Some e => Watcher.type e :: ks
     | None => ks
     end) = true.
Proof.
  destruct o as [v|v|v]; cbn [Watcher.step fst snd]; try (intros H; exact H).
  rewrite observe_spec. cbn [fst snd Watcher.inside].
  destruct (Watcher.isInRange w v), (Watcher.inside w);
    cbn; intros H; rewrite ?H; reflexivity.
Qed.

Lemma run_alternating (ops : list Watcher.op) :
  forall w : Watcher.t,
    Watcher.alternating (Watcher.inside w) (Watcher.kinds (Watcher.run w ops))
    = true.
Proof.
  induction ops as [|o ops IH]; intros w; [reflexivity|].
  cbn [Watcher.run Watcher.kinds].
  pose proof (step_alternating w o _ (IH (fst (Watcher.step w o)))) as H.
  destruct (snd (Watcher.step w o)); exact H.
Qed.

Lemma run_inside_quiet (values : list number) :
  forall w : Watcher.t,
    Watcher.inside w = true ->
    Forall (fun v => Watcher.isInRange w v = true) values ->
    Watcher.run w (map Watcher.Observe values)
    = repeat None (List.length values) /\
    Watcher.inside (Watcher.final w (map Watcher.Observe values)) = true.
Proof.
  induction values as [|v values IH]; intros w Hin Hall; [auto|].
  inversion Hall as [|v' values' Hv Hrest]; subst.
  cbn [map Watcher.run Watcher.final Watcher.step List.length repeat].
  rewrite observe_spec, Hv, Hin. cbn [fst snd Bool.eqb].
  destruct (IH (Watcher.mkWatcher true (Watcher.rangeMin w)
                  (Watcher.rangeMax w) v) eq_refl) as [E1 E2].
  { revert Hrest. apply Forall_impl. intros a Ha. exact Ha. }
  rewrite E1. auto.
Qed.

Lemma run_outside_quiet (values : list number) :
  forall w : Watcher.t,
    Watcher.inside w = false ->
    Forall (fun v => Watcher.isInRange w v = false) values ->
    Watcher.run w (map Watcher.Observe values)
    = repeat None (List.length values).
Proof.
  induction values as [|v values IH]; intros w Hin Hall; [auto|].
  inversion Hall as [|v' values' Hv Hrest]; subst.
  cbn [map Watcher.run Watcher.step List.length repeat].
  rewrite observe_spec, Hv, Hin. cbn [fst snd Bool.eqb].
  rewrite IH; [reflexivity|reflexivity|].
  revert Hrest. apply Forall_impl. intros a Ha. exact Ha.
Qed.

Lemma run_transitionEvents (values : list number) :
  forall w : Watcher.t,
    Watcher.run w (map Watcher.Observe values)
    = transitionEvents (Watcher.isInRange w) (Watcher.inside w) values.
Proof.
  induction values as [|v values IH]; intros w; [reflexivity|].
  cbn [map Watcher.run Watcher.step transitionEvents].
  rewrite observe_spec. cbn [fst snd]. f_equal.
  exact (IH (Watcher.mkWatcher (Watcher.isInRange w v) (Watcher.rangeMin w)
               (Watcher.rangeMax w) v)).
Qed.

(** The passage watcher's range [[1, 2)] holds 1 and not 0. *)
Lemma passage_range (w : Watcher.t) :
  Watcher.rangeMin w = Num 1 ->
  Watcher.rangeMax w = Num 2 ->
  Watcher.isInRange w (Num 1) = true /\ Watcher.isInRange w (Num 0) = false.
Proof.
  intros H1 H2. unfold Watcher.isInRange. rewrite H1, H2. split.
  - rewrite (proj2 (nle_Num 1 1)) by lra.
    rewrite (proj2 (nlt_Num 1 2)) by lra. reflexivity.
  - unfold nle. destruct (Rle_dec 1 0); [lra|reflexivity].
Qed.

(** The passage watcher as the plugin drives it: its membership follows
    the passage flag of the result, and it emits on a change of the flag
    only. *)
Lemma calcResult_passage (srcPaths : SKPaths) (result : CourseData)
    (p : Plugin) :
  Watcher.rangeMin (watchPassedDest p) = Num 1 ->
  Watcher.rangeMax (watchPassedDest p) = Num 2 ->
  let flag :=
    match passedPerpendicular_flag result with
    | Some true => true
    | _ => false
    end in
  let p' := fst (calcResult srcPaths result p) in
  snd (snd (calcResult srcPaths result p))
  = (if Bool.eqb flag (Watcher.inside (watchPassedDest p)) then None
     else Some (Watcher.mkWatchEvent
                  (if flag then Watcher.enter else Watcher.exit)
                  (if flag then Num 1 else Num 0))) /\
  Watcher.inside (watchPassedDest p') = flag /\
  Watcher.rangeMin (watchPassedDest p') = Num 1 /\
  Watcher.rangeMax (watchPassedDest p') = Num 2.
Proof.
  intros Hmin Hmax flag p'. subst flag p'. unfold calcResult.
  rewrite !observe_spec. cbn [fst snd watchPassedDest Watcher.inside
    Watcher.rangeMin Watcher.rangeMax].
  destruct (passage_range _ Hmin Hmax) as [H1 H0].
  destruct (passedPerpendicular_flag result) as [[|]|];
    rewrite ?H1, ?H0; auto.
Qed.

(** C9.  One observation emits an event exactly when the membership of
    the value in [[rangeMin, rangeMax)] differs from the watcher's state:
    [enter] when the value is in the range and the watcher was Outside,
    [exit] when it is not and the watcher was Inside, nothing otherwise;
    and the state becomes that membership.  Over a sequence of
    observations the events are those of the changes of membership from
    one value to the next.  Hence, over any sequence of observations
    and changes of the bounds, the events alternate, the
    first being [enter] for a watcher that starts Outside; values that
    stay in the range of a watcher that is Inside emit nothing; a value
    out of the range then emits one [exit], and further values out of the
    range nothing.  The plugin's passage watcher, with range [[1, 2)],
    follows the passage flag this way. *)
Theorem C9_watcher_transitions :
  (forall (w : Watcher.t) (v : number),
     Watcher.observe w v
     = (Watcher.mkWatcher (Watcher.isInRange w v) (Watcher.rangeMin w)
          (Watcher.rangeMax w) v,
        if Bool.eqb (Watcher.isInRange w v) (Watcher.inside w) then None
        else Some (Watcher.mkWatchEvent
                     (if Watcher.isInRange w v then Watcher.enter
                      else Watcher.exit) v))) /\
  (forall (w : Watcher.t) (values : list number),
     Watcher.run w (map Watcher.Observe values)
     = transitionEvents (Watcher.isInRange w) (Watcher.inside w) values) /\
  (forall (w : Watcher.t) (ops : list Watcher.op),
     Watcher.alternating (Watcher.inside w)
       (Watcher.kinds (Watcher.run w ops)) = true) /\
  (forall (rangeMin rangeMax value : number) (ops : list Watcher.op),
     Watcher.alternating false
       (Watcher.kinds (Watcher.run (Watcher.new rangeMin rangeMax value) ops))
     = true) /\
  (forall (w : Watcher.t) (values : list number),
     Watcher.inside w = true ->
     Forall (fun v => Watcher.isInRange w v = true) values ->
     Watcher.run w (map Watcher.Observe values)
     = repeat None (List.length values)) /\
  (forall (w : Watcher.t) (v : number) (values : list number),
     Watcher.inside w = true ->
     Watcher.isInRange w v = false ->
     Forall (fun v => Watcher.isInRange w v = false) values ->
     Watcher.run w (map Watcher.Observe (v :: values))
     = Some (Watcher.mkWatchEvent Watcher.exit v)
       :: repeat None (List.length values)) /\
  (forall (srcPaths : SKPaths) (result : CourseData) (p : Plugin),
     Watcher.rangeMin (watchPassedDest p) = Num 1 ->
     Watcher.rangeMax (watchPassedDest p) = Num 2 ->
     let flag :=
       match passedPerpendicular_flag result with
       | Some true => true
       | _ => false
       end in
     let p' := fst (calcResult srcPaths result p) in
     snd (snd (calcResult srcPaths result p))
     = (if Bool.eqb flag (Watcher.inside (watchPassedDest p)) then None
        else Some (Watcher.mkWatchEvent
                     (if flag then Watcher.enter else Watcher.exit)
                     (if flag then Num 1 else Num 0))) /\
     Watcher.inside (watchPassedDest p') = flag /\
     Watcher.rangeMin (watchPassedDest p') = Num 1 /\
     Watcher.rangeMax (watchPassedDest p') = Num 2).
Proof.
  split; [exact observe_spec|].
  split; [intros w values; apply run_transitionEvents|].
  split; [intros w ops; apply run_alternating|].
  split;
    [intros lo hi v0 ops; exact (run_alternating ops (Watcher.new lo hi v0))|].
  split; [intros w values Hin Hall; apply run_inside_quiet; assumption|].
  split; [|exact calcResult_passage].
  intros w v values Hin Hv Hall.
  cbn [map Watcher.run Watcher.step]. rewrite observe_spec, Hv, Hin.
  cbn [fst snd Bool.eqb]. f_equal.
  apply run_outside_quiet; [reflexivity|exact Hall].
Qed.

(* ================================================================= *)
(** * Further properties of the worker *)

Section WorkerFurther.

Variable new_LatLon : number -> number -> completion LatLon.
Variable distanceTo : LatLon -> LatLon -> number.
Variable initialBearingTo : LatLon -> LatLon -> number.
Variable rhumbDistanceTo : LatLon -> LatLon -> number.
Variable rhumbBearingTo : LatLon -> LatLon -> number.
Variable crossTrackDistanceTo : LatLon -> LatLon -> LatLon -> number.
Variable Date_parse : string -> number.

Local Abbreviation calcs' :=
  (calcs new_LatLon distanceTo initialBearingTo rhumbDistanceTo rhumbBearingTo
     crossTrackDistanceTo Date_parse).
Local Abbreviation timeCalcs' := (timeCalcs Date_parse).
Local Abbreviation runWorker' :=
  (runWorker new_LatLon distanceTo initialBearingTo rhumbDistanceTo
     rhumbBearingTo crossTrackDistanceTo Date_parse).
Local Abbreviation onMessage' :=
  (onMessage new_LatLon distanceTo initialBearingTo rhumbDistanceTo
     rhumbBearingTo crossTrackDistanceTo Date_parse).

(** X1.  A velocity made good that is a finite number never exceeds the
    speed over ground in magnitude, and equals it when the heading is the
    bearing. *)
Theorem X1_vmg_within_speed (src : SKPaths) :
  (forall (bearingTrue : number) (v : R),
     vmg src bearingTrue = Some (Num v) ->
     exists s : R,
       navigation_speedOverGround src = Some (Num s) /\ Rabs v <= Rabs s) /\
  (forall b s : R,
     navigation_headingTrue src = Some (Num b) ->
     navigation_speedOverGround src = Some (Num s) ->
     vmg src (Num b) = Some (Num s)).
Proof.
  split.
  - intros bearingTrue v. unfold vmg.
    destruct (navigation_headingTrue src) as [[|h]|]; try discriminate;
      destruct (navigation_speedOverGround src) as [[|s]|];
      destruct bearingTrue as [|b]; try discriminate.
    cbn. intros [= <-]. exists s. split; [reflexivity|].
    rewrite Rabs_mult. pose proof (COS_bound (b - h)) as [H1 H2].
    assert (Rabs (cos (b - h)) <= 1) by (apply Rabs_le; lra).
    pose proof (Rabs_pos s). nra.
  - intros b s Hh Hs. unfold vmg. rewrite Hh, Hs. cbn.
    replace (b - b) with 0 by lra. rewrite cos_0.
    do 2 f_equal. lra.
Qed.

Lemma vmg_NaN_bearing (src : SKPaths) :
  falsy (vmg src (toRadians NaN)) = true.
Proof.
  unfold vmg.
  destruct (navigation_headingTrue src) as [h|]; [|reflexivity].
  destruct (navigation_speedOverGround src) as [s|]; [|reflexivity].
  reflexivity.
Qed.

(** X2.  On a valid snapshot whose points the constructor has made, when
    the library has no bearing from the vessel to the destination (it
    gives NaN), [calcs] still returns: the bearing of each branch is NaN,
    its velocity made good is null or NaN, and its time to go and
    estimated time of arrival are null. *)
Theorem X2_no_bearing_no_times (now : Z) (src : SKPaths)
    (vessel destination start : LatLon) :
  pointAt new_LatLon (navigation_position src) vessel ->
  pointAt new_LatLon (navigation_course_nextPoint_position src) destination ->
  pointAt new_LatLon (navigation_course_previousPoint_position src) start ->
  initialBearingTo vessel destination = NaN ->
  rhumbBearingTo vessel destination = NaN ->
  exists r,
    calcs' now src = Normal r /\
    bearingTrue (gc r) = Some NaN /\ bearingTrue (rl r) = Some NaN /\
    falsy (velocityMadeGood (gc r)) = true /\
    falsy (velocityMadeGood (rl r)) = true /\
    timeToGo (gc r) = None /\ estimatedTimeOfArrival (gc r) = None /\
    timeToGo (rl r) = None /\ estimatedTimeOfArrival (rl r) = None.
Proof.
  intros (pv & Hv & Hv') (pd & Hd & Hd') (ps & Hs & Hs') Hgc Hrl.
  unfold calcs. rewrite Hv, Hd, Hs. cbv beta iota.
  rewrite Hv', Hd', Hs'. cbn [bind]. rewrite Hgc, Hrl.
  rewrite !(timeCalcs_falsy _ _ _ _ _ (vmg_NaN_bearing src)).
  cbn [bind]. eexists. split; [reflexivity|].
  cbn [gc rl bearingTrue velocityMadeGood timeToGo estimatedTimeOfArrival
       ttg eta].
  pose proof (vmg_NaN_bearing src). repeat split; assumption.
Qed.


Lemma ms_nonneg (d v : R) :
  0 <= d -> 0 < v -> (0 <= Int_part (d / (v * 0.514444) * 1000))%Z.
Proof.
  intros Hd Hv.
  assert (Hq : 0 <= d / (v * 0.514444) * 1000).
  { assert (0 < / (v * 0.514444)) by (apply Rinv_0_lt_compat; lra).
    unfold Rdiv. nra. }
  pose proof (floor_le (d / (v * 0.514444) * 1000)) as Hfl.
  apply le_IZR. assert (-1 < IZR (Int_part (d / (v * 0.514444) * 1000)))
    by lra.
  apply lt_IZR in H. apply IZR_le. lia.
Qed.

(** X4.  With a distance that is not negative and a positive velocity
    made good, what [timeCalcs] returns is a time to go that is not
    negative, a whole number of milliseconds, and, for a snapshot without
    timestamp, the instant that many milliseconds after the clock
    reading. *)
Theorem X4_positive_vmg (now : Z) (src : SKPaths) (d v : R) (t : TimeResult) :
  0 <= d ->
  0 < v ->
  timeCalcs' now src (Some (Num d)) (Some (Num v)) = Normal t ->
  exists ms : Z,
    (0 <= ms)%Z /\
    ttg t = Some (Num (IZR ms / 1000)) /\ 0 <= IZR ms / 1000 /\
    (navigation_datetime src = None -> eta t = Some (ISO (now + ms))).
Proof.
  intros Hd Hv Ht. apply timeCalcs_Normal in Ht.
  destruct Ht as [[Hf _]|(d' & v' & dm & Hd' & Hv' & Hv0 & Hdm & Hr & ->)].
  { assert (falsy (Some (Num v)) = false) by (apply falsy_Num; lra).
    congruence. }
  injection Hd' as <-. injection Hv' as <-.
  pose proof (ms_nonneg d v Hd Hv) as Hms.
  exists (Int_part (d / (v * 0.514444) * 1000)).
  split; [assumption|]. split; [reflexivity|]. split.
  - apply IZR_le in Hms. lra.
  - intros Hnone. unfold dateMsec in Hdm. rewrite Hnone in Hdm.
    injection Hdm as <-. cbn [eta].
    rewrite <- plus_IZR, trunc_IZR. reflexivity.
Qed.

Lemma Int_part_le (x y : R) : x <= y -> (Int_part x <= Int_part y)%Z.
Proof.
  intros H. pose proof (floor_le x). pose proof (floor_le y).
  assert (IZR (Int_part x) < IZR (Int_part y) + 1) by lra.
  rewrite <- plus_IZR in H2. apply lt_IZR in H2. lia.
Qed.

(** X5.  With the same positive velocity made good, a longer distance
    never gives a shorter time to go. *)
Theorem X5_time_grows_with_distance (now : Z) (src : SKPaths)
    (d1 d2 v : R) (t1 t2 : TimeResult) :
  d1 <= d2 ->
  0 < v ->
  timeCalcs' now src (Some (Num d1)) (Some (Num v)) = Normal t1 ->
  timeCalcs' now src (Some (Num d2)) (Some (Num v)) = Normal t2 ->
  exists ttg1 ttg2 : R,
    ttg t1 = Some (Num ttg1) /\ ttg t2 = Some (Num ttg2) /\ ttg1 <= ttg2.
Proof.
  intros Hd Hv H1 H2.
  assert (Hf : falsy (Some (Num v)) = false) by (apply falsy_Num; lra).
  apply timeCalcs_Normal in H1, H2.
  destruct H1 as [[Hf1 _]|(a1 & b1 & dm1 & Ha1 & Hb1 & _ & _ & _ & ->)];
    [congruence|].
  destruct H2 as [[Hf2 _]|(a2 & b2 & dm2 & Ha2 & Hb2 & _ & _ & _ & ->)];
    [congruence|].
  injection Ha1 as <-. injection Hb1 as <-.
  injection Ha2 as <-. injection Hb2 as <-.
  do 2 eexists. split; [reflexivity|]. split; [reflexivity|].
  assert (Hq : d1 / (v * 0.514444) * 1000 <= d2 / (v * 0.514444) * 1000).
  { assert (0 < / (v * 0.514444)) by (apply Rinv_0_lt_compat; lra).
    unfold Rdiv. nra. }
  apply Int_part_le, IZR_le in Hq. lra.
Qed.

Lemma last_cons_default {A : Type} (l : list A) :
  forall x d : A, List.last (x :: l) d = List.last l x.
Proof.
  induction l as [|y l IH]; intros x d; [reflexivity|].
  change (List.last (x :: y :: l) d) with (List.last (y :: l) d).
  rewrite (IH y d), (IH y x). reflexivity.
Qed.

Lemma runWorker_cons (now : Z) (message : SKPaths)
    (messages : list (Z * SKPaths)) (activeDest : bool) :
  runWorker' activeDest ((now, message) :: messages)
  = (step <- onMessage' now message activeDest ;;
     tail <- runWorker' (snd step) messages ;;
     Normal (fst step :: fst tail, snd tail)).
Proof. reflexivity. Qed.

Lemma onMessage_Normal (now : Z) (message : SKPaths) (activeDest : bool)
    (post : option CourseData) (a : bool) :
  onMessage' now message activeDest = Normal (post, a) <->
  a = parseSKPaths message /\
  (if parseSKPaths message
   then exists r, calcs' now message = Normal r /\ post = Some r
   else post = if activeDest then Some invalidated else None).
Proof.
  unfold onMessage. destruct (parseSKPaths message).
  - destruct (calcs' now message) as [r|e]; cbn [bind]; split.
    + intros [= <- <-]. eauto.
    + intros (-> & r' & [= <-] & ->). reflexivity.
    + discriminate.
    + intros (_ & r' & H & _). discriminate.
  - destruct activeDest; split.
    + intros [= <- <-]. auto.
    + intros (-> & ->). reflexivity.
    + intros [= <- <-]. auto.
    + intros (-> & ->). reflexivity.
Qed.

(** X9.  Over any session the handler returns exactly when every valid
    message is computed without exception; it then posts, message by
    message, the result of a valid message, the invalidating object for
    a stale message that directly follows a valid one, and nothing for
    any other stale message, and it ends with [activeDest] telling
    whether the last message was valid. *)
Theorem X9_posts_of_a_session (messages : list (Z * SKPaths)) :
  forall (activeDest : bool) (posts : list (option CourseData)) (a : bool),
    runWorker' activeDest messages = Normal (posts, a) <->
    postsOf calcs' activeDest messages posts /\
    a = lastValid activeDest messages.
Proof.
  induction messages as [|[now m] rest IH]; intros activeDest posts a.
  - cbn. split.
    + intros [= <- <-]. auto.
    + intros [H ->]. destruct posts; [reflexivity|contradiction].
  - rewrite runWorker_cons.
    assert (Hlast : lastValid activeDest ((now, m) :: rest)
                    = lastValid (parseSKPaths m) rest).
    { unfold lastValid. cbn [map snd]. apply last_cons_default. }
    rewrite Hlast. split.
    + destruct (onMessage' now m activeDest) as [[post a1]|e] eqn:Hstep;
        cbn [bind]; [|discriminate].
      destruct (runWorker' (snd (post, a1)) rest) as [[posts' a2]|e] eqn:Hrun;
        cbn [bind]; [|discriminate].
      intros [= <- <-]. cbn [fst snd] in *.
      apply onMessage_Normal in Hstep. destruct Hstep as [-> Hpost].
      apply IH in Hrun. destruct Hrun as [Hposts ->].
      cbn [postsOf]. auto.
    + intros [Hposts ->]. destruct posts as [|post posts']; [contradiction|].
      cbn [postsOf] in Hposts. destruct Hposts as [Hpost Hrest].
      rewrite (proj2 (onMessage_Normal now m activeDest post (parseSKPaths m)))
        by auto.
      cbn [bind snd fst].
      rewrite (proj2 (IH (parseSKPaths m) posts'
                        (lastValid (parseSKPaths m) rest))) by auto.
      reflexivity.
Qed.

Lemma calcs_carries_flag (now : Z) (src : SKPaths) (r : CourseData) :
  calcs' now src = Normal r -> isInvalidation (Some r) = false.
Proof.
  unfold calcs.
  destruct (navigation_position src) as [v|];
    [destruct (new_LatLon (latitude v) (longitude v)) as [qv|]|];
    cbn [bind]; try discriminate;
    (destruct (navigation_course_nextPoint_position src) as [d|];
     [destruct (new_LatLon (latitude d) (longitude d)) as [qd|]|]);
    cbn [bind]; try discriminate;
    (destruct (navigation_course_previousPoint_position src) as [s|];
     [destruct (new_LatLon (latitude s) (longitude s)) as [qs|]|]);
    cbn [bind]; try discriminate;
    try (intros [= <-]; reflexivity).
  destruct (timeCalcs _ _ _ _ _) as [gcTime|e]; cbn [bind]; [|discriminate].
  destruct (timeCalcs _ _ _ _ _) as [rlTime|e]; cbn [bind]; [|discriminate].
  intros [= <-]. reflexivity.
Qed.

Lemma invalidations_bounded (messages : list (Z * SKPaths)) :
  forall (activeDest : bool) (posts : list (option CourseData)) (a : bool),
    runWorker' activeDest messages = Normal (posts, a) ->
    (List.length (filter isInvalidation posts)
     + (if a then 1 else 0)
     <= List.length (filter (fun m => parseSKPaths (snd m)) messages)
        + (if activeDest then 1 else 0))%nat.
Proof.
  induction messages as [|[now m] rest IH]; intros activeDest posts a.
  - cbn. intros [= <- <-]. cbn. lia.
  - rewrite runWorker_cons.
    destruct (onMessage' now m activeDest) as [[post a1]|e] eqn:Hstep;
      cbn [bind]; [|discriminate].
    destruct (runWorker' (snd (post, a1)) rest) as [[posts' a2]|e] eqn:Hrun;
      cbn [bind]; [|discriminate].
    intros [= <- <-]. cbn [fst snd] in *.
    apply IH in Hrun. apply onMessage_Normal in Hstep.
    destruct Hstep as [-> Hpost]. cbn [filter snd].
    destruct (parseSKPaths m).
    + destruct Hpost as (r & Hr & ->).
      rewrite (calcs_carries_flag _ _ _ Hr). cbn [List.length].
      destruct activeDest; lia.
    + subst post. destruct activeDest; cbn in *; lia.
Qed.

(** X10.  From its start the handler never posts more invalidating
    objects than it has posted computed results: over any session that
    returns, the posts without passage flag are at most as many as the
    valid messages, and one fewer when the session ends on a valid
    message. *)
Theorem X10_invalidations_bounded (messages : list (Z * SKPaths))
    (posts : list (option CourseData)) (a : bool) :
  runWorker' activeDest_init messages = Normal (posts, a) ->
  (List.length (filter isInvalidation posts) + (if a then 1 else 0)
   <= List.length (filter (fun m => parseSKPaths (snd m)) messages))%nat.
Proof.
  intros H. apply invalidations_bounded in H.
  unfold activeDest_init in H. lia.
Qed.

Lemma toRadians_Num (theta : R) :
  toRadians (Num theta) = Num (theta * PI / 180).
Proof.
  unfold toRadians, Math.PI. cbn [nmul lift2].
  rewrite ndiv_Num by lra. reflexivity.
Qed.

Lemma radiansOf_toRadians (degrees : number) :
  radiansOf degrees (Some (toRadians degrees)).
Proof.
  intros theta -> [H1 H2]. rewrite toRadians_Num.
  exists (theta * PI / 180). split; [reflexivity|]. split; [reflexivity|].
  pose proof PI_RGT_0 as HPI. split; nra.
Qed.

Lemma shiftedBy_toRadians (degrees : number) (variation : option number) :
  shiftedBy degrees variation
    (match variation with
     | Some v => Some (toRadians degrees - v)%js
     | None => None
     end).
Proof.
  intros theta var -> ->. rewrite toRadians_Num. cbn [nsub lift2].
  exists (theta * PI / 180 - var). split; [reflexivity|].
  split; [reflexivity|]. split; lra.
Qed.

(** X11.  On a valid snapshot, the constructor having made its three
    points, the true bearings of the result are the
    library's bearings in radians, within [[0, 2 PI)] when the library's
    are within [[0, 360)] degrees; the magnetic bearings are the true
    ones minus the variation and are not brought back into that range:
    they are negative whenever the variation exceeds the true bearing. *)
Theorem X11_bearing_ranges (now : Z) (src : SKPaths)
    (vessel destination start : LatLon) :
  pointAt new_LatLon (navigation_position src) vessel ->
  pointAt new_LatLon (navigation_course_nextPoint_position src) destination ->
  pointAt new_LatLon (navigation_course_previousPoint_position src) start ->
  outcome (calcs' now src)
    (fun r =>
       let variation := navigation_magneticVariation src in
       (radiansOf (initialBearingTo start destination)
          (bearingTrackTrue (gc r)) /\
        radiansOf (initialBearingTo vessel destination) (bearingTrue (gc r)) /\
        radiansOf (rhumbBearingTo start destination)
          (bearingTrackTrue (rl r)) /\
        radiansOf (rhumbBearingTo vessel destination) (bearingTrue (rl r))) /\
       (shiftedBy (initialBearingTo start destination) variation
          (bearingTrackMagnetic (gc r)) /\
        shiftedBy (initialBearingTo vessel destination) variation
          (bearingMagnetic (gc r)) /\
        shiftedBy (rhumbBearingTo start destination) variation
          (bearingTrackMagnetic (rl r)) /\
        shiftedBy (rhumbBearingTo vessel destination) variation
          (bearingMagnetic (rl r))))
    (timeCalcsThrows distanceTo initialBearingTo rhumbDistanceTo
       rhumbBearingTo Date_parse now src vessel destination).
Proof.
  intros Hv Hd Hs.
  apply (calcs_valid _ _ _ _ _ _ _ _ _ _ _ _ _ Hv Hd Hs).
  intros gcTime rlTime Hgc Hrl r Hr.
  calcs_in Hr Hv Hd Hs.
  rewrite Hgc in Hr; cbn [bind] in Hr. rewrite Hrl in Hr; cbn [bind] in Hr.
  injection Hr as <-.
  cbn [gc rl bearingTrackTrue bearingTrue bearingTrackMagnetic
       bearingMagnetic].
  cbv zeta. repeat split;
    first [apply radiansOf_toRadians | apply shiftedBy_toRadians].
Qed.

End WorkerFurther.

(** ** The earlier revision's counter *)

Section LegacyFurther.

Variable LegacyCourseData : Type.
Variable legacy_calcs : Z -> Legacy.SKPaths -> completion LegacyCourseData.
Variable legacy_invalidated : LegacyCourseData.

Local Abbreviation legacy_onMessage :=
  (Legacy.onMessage LegacyCourseData legacy_calcs legacy_invalidated).
Local Abbreviation legacy_runWorker :=
  (Legacy.runWorker LegacyCourseData legacy_calcs legacy_invalidated).

Lemma legacy_onMessage_counter (now : Z) (message : Legacy.SKPaths)
    (c c' : Z) (post : option LegacyCourseData) :
  (0 <= c <= Legacy.MAX_STALE_COUNT)%Z ->
  legacy_onMessage now message c = Normal (post, c') ->
  (0 <= c' <= Legacy.MAX_STALE_COUNT)%Z.
Proof.
  unfold Legacy.onMessage, Legacy.parseSKPaths, Legacy.MAX_STALE_COUNT.
  intros Hc.
  destruct (Legacy.navigation_position message),
    (Legacy.nextPoint_position message),
    (Legacy.previousPoint_position message);
    try (destruct (c + 1 >? 20)%Z eqn:Hgt; intros [= <- <-]; lia).
  destruct (legacy_calcs now message); cbn [bind]; [|discriminate].
  intros [= <- <-]. lia.
Qed.

(** X12.  In the earlier revision the stale counter, once within
    0 .. MAX_STALE_COUNT, is within it again after every session that
    returns, valid and stale messages in any order, and one entry (a post
    or nothing) is recorded per message. *)
Theorem X12_legacy_counter_bounded (messages : list (Z * Legacy.SKPaths)) :
  forall (c c' : Z) (posts : list (option LegacyCourseData)),
    (0 <= c <= Legacy.MAX_STALE_COUNT)%Z ->
    legacy_runWorker c messages = Normal (posts, c') ->
    (0 <= c' <= Legacy.MAX_STALE_COUNT)%Z /\
    List.length posts = List.length messages.
Proof.
  induction messages as [|[now m] rest IH]; intros c c' posts Hc.
  - cbn. intros [= <- <-]. auto.
  - cbn [Legacy.runWorker].
    destruct (legacy_onMessage now m c) as [[post c1]|e] eqn:Hstep;
      cbn [bind]; [|discriminate].
    destruct (legacy_runWorker (snd (post, c1)) rest) as [[posts' c2]|e]
      eqn:Hrun; cbn [bind]; [|discriminate].
    intros [= <- <-]. cbn [snd fst] in *.
    apply legacy_onMessage_counter in Hstep; [|assumption].
    destruct (IH _ _ _ Hstep Hrun) as [H1 H2].
    split; [assumption|]. cbn [List.length]. congruence.
Qed.

End LegacyFurther.

(** ** The longitude difference and the passage flag *)

(** X6.  Across the antimeridian, from a longitude within 10 degrees east
    of it to one within 10 degrees west of it, the longitude difference is
    taken the short way: it is the second longitude plus 360 minus the
    first, between 0 and 20 degrees, and the difference taken the other
    way round is its opposite. *)
Theorem X6_xDiff_across_antimeridian (a b : R) :
  170 < a <= 180 ->
  -180 <= b < -170 ->
  xDiff (Num a) (Num b) = Num (b + 360 - a) /\
  0 <= b + 360 - a < 20 /\
  xDiff (Num b) (Num a) = Num (- (b + 360 - a)).
Proof.
  intros Ha Hb. split; [|split; [lra|]].
  - unfold xDiff.
    rewrite (proj2 (ngt_Num a 170)) by lra.
    rewrite (proj2 (nlt_Num b 0)) by lra.
    cbn. f_equal. lra.
  - unfold xDiff.
    rewrite (proj2 (ngt_Num_false b 170)) by lra.
    rewrite (proj2 (nlt_Num b (-170))) by lra.
    rewrite (proj2 (ngt_Num a 0)) by lra.
    cbn. f_equal. lra.
Qed.

Lemma xDiff_same (a : number) : xDiff a a = Num 0 \/ xDiff a a = NaN.
Proof.
  destruct a as [|x]; [right; reflexivity|]. left. unfold xDiff.
  destruct (Rlt_dec 170 x) as [Hgt|Hle].
  - rewrite (proj2 (nlt_Num_false x 0)) by lra.
    rewrite andb_false_r.
    rewrite (proj2 (nlt_Num_false x (-170))) by lra.
    cbn. f_equal. lra.
  - rewrite (proj2 (ngt_Num_false x 170)) by lra. cbn [andb].
    destruct (Rlt_dec x (-170)) as [Hlt|Hge].
    + rewrite (proj2 (ngt_Num_false x 0)) by lra.
      rewrite andb_false_r. cbn. f_equal. lra.
    + rewrite (proj2 (nlt_Num_false x (-170))) by lra.
      cbn. f_equal. lra.
Qed.

Lemma toVector_same (p : LatLon) :
  length (toVector p p) = Num 0 \/ length (toVector p p) = NaN.
Proof.
  unfold toVector. cbn [length]. rewrite !pow_2_mul.
  destruct (xDiff_same (longitude p)) as [-> | ->]; [|right; reflexivity].
  destruct (latitude p) as [|y]; [right; reflexivity|]. left.
  cbn [nsub nmul nadd lift2].
  rewrite sqrt_Num by lra.
  replace (0 * 0 + (y - y) * (y - y)) with 0 by lra.
  rewrite sqrt_0. reflexivity.
Qed.

Lemma flag_false_of_length (va vb : Vector) :
  (length va = Num 0 \/ length va = NaN \/
   length vb = Num 0 \/ length vb = NaN) ->
  (if ((Num 180 / Math.PI)
       * Math.acos ((vx va * vx vb + vy va * vy vb)
                    / (length va * length vb)) >? Num 90)%js
   then true else false) = false.
Proof.
  intros H.
  assert (E : ((vx va * vx vb + vy va * vy vb)
               / (length va * length vb))%js = NaN).
  { destruct (vx va * vx vb + vy va * vy vb)%js as [|dot];
      [reflexivity|].
    destruct (length va) as [|la], (length vb) as [|lb];
      try reflexivity.
    assert (Hz : la * lb = 0).
    { destruct H as [H | [H | [H | H]]]; try discriminate;
        injection H as ->; lra. }
    cbn [nmul lift2]. rewrite Hz. apply ndiv_zero. }
  rewrite E. cbn [Math.acos].
  destruct (Num 180 / Math.PI)%js; reflexivity.
Qed.

(** X7.  The passage flag is false when the vessel is at the
    destination, and when the start point is the destination. *)
Theorem X7_passedPerpendicular_degenerate (p q : LatLon) :
  passedPerpendicular p p q = false /\
  passedPerpendicular q p p = false.
Proof.
  unfold passedPerpendicular. cbv zeta. split; apply flag_false_of_length.
  - destruct (toVector_same p) as [H|H]; auto.
  - destruct (toVector_same p) as [H|H]; auto.
Qed.

(** X8.  Along a line of the plane, away from the antimeridian.  With
    the three points on one parallel, or on one meridian, the destination
    not beyond 170 degrees east or west, and the vessel and the start
    point each between a billionth of a degree and 360 degrees from the
    destination, the passage flag is true exactly when the vessel and the
    start point are on opposite sides of the destination. *)
Theorem X8_passed_along_a_line (parallel : bool) (c d v s : R) :
  -170 <= (if parallel then d else c) <= 170 ->
  1e-9 <= Rabs (v - d) <= 360 ->
  1e-9 <= Rabs (s - d) <= 360 ->
  let p (t : R) :=
    if parallel then mkPosition (Num c) (Num t)
    else mkPosition (Num t) (Num c) in
  passedPerpendicular (p v) (p d) (p s) = true <-> (v - d) * (s - d) < 0.
Proof.
  intros Hd Hv Hs p. unfold p. destruct parallel.
  - rewrite (passedPerpendicular_dot _ _ _ (v - d) (c - c) (s - d) (c - c));
      try (rewrite toVector_plain by assumption; reflexivity).
    split; intros H; nra.
  - rewrite (passedPerpendicular_dot _ _ _ (c - c) (v - d) (c - c) (s - d));
      try (rewrite toVector_plain by assumption; reflexivity).
    split; intros H; nra.
Qed.

(** * The delta message and the endpoint *)

Lemma buildDeltaMsg_paths (config : Config) (course : CourseData) :
  map Delta.path (buildDeltaMsg config course)
  = [ "navigation.course.calcValues.calcMethod";
      "navigation.course.calcValues.bearingTrackTrue";
      "navigation.course.calcValues.bearingTrackMagnetic";
      "navigation.course.calcValues.crossTrackError";
      "navigation.course.calcValues.previousPoint.distance";
      "navigation.course.calcValues.distance";
      "navigation.course.calcValues.bearingTrue" ]%string
    ++ (if enabled (autopilot (calculations config))
        then ["steering.autopilot.target.headingTrue"%string] else [])
    ++ ["navigation.course.calcValues.bearingMagnetic"%string]
    ++ (if enabled (autopilot (calculations config))
        then ["steering.autopilot.target.bearingMagnetic"%string] else [])
    ++ [ "navigation.course.calcValues.velocityMadeGood";
         "navigation.course.calcValues.timeToGo";
         "navigation.course.calcValues.estimatedTimeOfArrival";
         "navigation.course.calcValues.targetSpeed" ]%string.
Proof.
  unfold buildDeltaMsg.
  destruct (enabled (autopilot (calculations config))); reflexivity.
Qed.

Lemma NoDup_strings (l : list string) :
  (forall i j, (i < j < List.length l)%nat ->
     String.eqb (nth i l EmptyString) (nth j l EmptyString) = false) ->
  NoDup l.
Proof.
  induction l as [|a l IH]; intros H; constructor.
  - intros Hin. apply (In_nth _ _ EmptyString) in Hin.
    destruct Hin as (j & Hj & Hnth).
    specialize (H 0%nat (S j)). cbn in H. rewrite Hnth in H.
    rewrite String.eqb_refl in H. discriminate H. lia.
  - apply IH. intros i j Hij. apply (H (S i) (S j)). cbn. lia.
Qed.

(** X13.  Whatever the result, the delta message carries one value for
    each of the twelve paths under navigation.course.calcValues, in a
    fixed order, and the two steering.autopilot.target paths exactly when
    the autopilot setting is on, right after the bearing each repeats; no
    path occurs twice, so that looking a path up gives its only value. *)
Theorem X13_delta_paths (config : Config) (course : CourseData) :
  let values := buildDeltaMsg config course in
  let paths := map Delta.path values in
  NoDup paths /\
  List.length values
  = (if enabled (autopilot (calculations config)) then 14 else 12)%nat /\
  (forall p, In p paths ->
     exists v, Delta.lookup p values = Some v /\ In (Delta.mk p v) values) /\
  (In "steering.autopilot.target.headingTrue"%string paths
   <-> enabled (autopilot (calculations config)) = true) /\
  (In "steering.autopilot.target.bearingMagnetic"%string paths
   <-> enabled (autopilot (calculations config)) = true) /\
  (forall course', map Delta.path (buildDeltaMsg config course') = paths).
Proof.
  cbv zeta.
  assert (Hlookup : forall values p, In p (map Delta.path values) ->
            exists v, Delta.lookup p values = Some v /\
                      In (Delta.mk p v) values).
  { induction values as [|[q w] rest IH]; intros p; [intros []|].
    cbn [map Delta.lookup Delta.path Delta.value In].
    destruct (String.eqb q p) eqn:E.
    - apply String.eqb_eq in E. subst q. intros _. exists w. auto.
    - intros [H|H]; [subst q; rewrite String.eqb_refl in E; discriminate|].
      destruct (IH p H) as (v & H1 & H2). exists v. auto. }
  split; [|split; [|split; [apply Hlookup|]]].
  - rewrite buildDeltaMsg_paths.
    destruct (enabled (autopilot (calculations config)));
      apply NoDup_strings; cbn [app List.length];
      intros i j Hij;
      do 14 (destruct i as [|i]; [do 14 (destruct j as [|j];
               [first [reflexivity | lia]|]); cbn in Hij; lia|]);
      cbn in Hij; lia.
  - rewrite <- (length_map Delta.path), buildDeltaMsg_paths.
    destruct (enabled (autopilot (calculations config))); reflexivity.
  - split; [|split]; [| |intros course'; rewrite !buildDeltaMsg_paths;
                           reflexivity];
      rewrite buildDeltaMsg_paths;
      destruct (enabled (autopilot (calculations config)));
      cbn [app In];
      (split; [|intros H; first [discriminate H | auto 20]]); intros H;
      try reflexivity;
      repeat (destruct H as [H|H]; [discriminate H|]); destruct H.
Qed.

Section DeltaFurther.

Variable new_LatLon : number -> number -> completion LatLon.
Variable distanceTo initialBearingTo rhumbDistanceTo rhumbBearingTo :
  LatLon -> LatLon -> number.
Variable crossTrackDistanceTo : LatLon -> LatLon -> LatLon -> number.
Variable Date_parse : string -> number.

Local Abbreviation calcs' :=
  (calcs new_LatLon distanceTo initialBearingTo rhumbDistanceTo rhumbBearingTo
     crossTrackDistanceTo Date_parse).
Local Abbreviation onMessage' :=
  (onMessage new_LatLon distanceTo initialBearingTo rhumbDistanceTo
     rhumbBearingTo crossTrackDistanceTo Date_parse).

(** X14.  From a valid snapshot, the constructor having made its three
    points, to the delta message: when the worker
    returns, the message built from its result under the settings names
    the method of the selected branch (Rhumbline for the setting
    Rhumbline, Great Circle for any other), and carries that branch's
    distance to the destination and to the start point as the library
    gives them, the one cross-track distance whatever the setting, and no
    target speed; with the autopilot setting on, the two steering targets
    repeat the true and the magnetic bearing sent, and they are absent
    with it off. *)
Theorem X14_delta_of_valid_snapshot (config : Config) (now : Z)
    (src : SKPaths) (vessel destination start : LatLon) :
  pointAt new_LatLon (navigation_position src) vessel ->
  pointAt new_LatLon (navigation_course_nextPoint_position src) destination ->
  pointAt new_LatLon (navigation_course_previousPoint_position src) start ->
  outcome (calcs' now src)
    (fun r =>
       let values := buildDeltaMsg config r in
       let rhumb := String.eqb (method (calculations config)) "Rhumbline" in
       let sent (p : string) := Delta.lookup p values in
       sent "navigation.course.calcValues.calcMethod"%string
       = Some (VString (if rhumb then "Rhumbline" else "Great Circle")) /\
       sent "navigation.course.calcValues.distance"%string
       = Some (VNumber (if rhumb then rhumbDistanceTo vessel destination
                        else distanceTo vessel destination)) /\
       sent "navigation.course.calcValues.previousPoint.distance"%string
       = Some (VNumber (if rhumb then rhumbDistanceTo vessel start
                        else distanceTo vessel start)) /\
       sent "navigation.course.calcValues.crossTrackError"%string
       = Some (VNumber (crossTrackDistanceTo vessel start destination)) /\
       sent "navigation.course.calcValues.bearingTrue"%string
       = Some (VNumber
                 (toRadians (if rhumb then rhumbBearingTo vessel destination
                             else initialBearingTo vessel destination))) /\
       sent "navigation.course.calcValues.targetSpeed"%string
       = Some VNull /\
       sent "steering.autopilot.target.headingTrue"%string
       = (if enabled (autopilot (calculations config))
          then sent "navigation.course.calcValues.bearingTrue"%string
          else None) /\
       sent "steering.autopilot.target.bearingMagnetic"%string
       = (if enabled (autopilot (calculations config))
          then sent "navigation.course.calcValues.bearingMagnetic"%string
          else None))
    (timeCalcsThrows distanceTo initialBearingTo rhumbDistanceTo
       rhumbBearingTo Date_parse now src vessel destination).
Proof.
  intros Hv Hd Hs.
  apply (calcs_valid _ _ _ _ _ _ _ _ _ _ _ _ _ Hv Hd Hs).
  intros gcTime rlTime Hgc Hrl r Hr.
  calcs_in Hr Hv Hd Hs.
  rewrite Hgc in Hr; cbn [bind] in Hr. rewrite Hrl in Hr; cbn [bind] in Hr.
  injection Hr as <-.
  cbv zeta. unfold buildDeltaMsg.
  destruct (String.eqb (method (calculations config)) "Rhumbline");
    destruct (enabled (autopilot (calculations config)));
    cbn [gc rl]; repeat split; reflexivity.
Qed.

(** X15.  From a stale message to the delta message: with a destination
    active, a message lacking one of the three positions makes the worker
    post a result whose delta message, under any settings, sends null
    for every path, the method excepted, which is sent undefined. *)
Theorem X15_invalidation_delta (config : Config) (now : Z)
    (message : SKPaths) :
  parseSKPaths message = false ->
  exists post : CourseData,
    onMessage' now message true = Normal (Some post, false) /\
    Delta.lookup "navigation.course.calcValues.calcMethod"
      (buildDeltaMsg config post) = Some VUndefined /\
    forall v, In v (buildDeltaMsg config post) ->
      Delta.path v <> "navigation.course.calcValues.calcMethod"%string ->
      Delta.value v = VNull.
Proof.
  intros H. exists invalidated. split; [|split].
  - unfold onMessage. rewrite H. reflexivity.
  - unfold buildDeltaMsg.
    destruct (String.eqb (method (calculations config)) "Rhumbline");
      reflexivity.
  - unfold buildDeltaMsg, invalidated.
    destruct (String.eqb (method (calculations config)) "Rhumbline");
      destruct (enabled (autopilot (calculations config)));
      cbn [gc rl app In]; intros v Hin Hp;
      repeat (destruct Hin as [<-|Hin];
              [first [reflexivity | exfalso; apply Hp; reflexivity]|]);
      destruct Hin.
Qed.

End DeltaFurther.

(** X16.  The endpoint answers 400, FAILED, "No active destination!"
    only until the first result of the worker has been handled: after any
    result it answers 200 with the branch the settings select, and after
    an invalidating result 200 with the empty object. *)
Theorem X16_endpoint_after_result (config : Config) :
  (forall defaultMin defaultMax defaultValue : number,
     getCalcValues config
       (courseCalcs (plugin_init defaultMin defaultMax defaultValue))
     = Failed 400 "FAILED" "No active destination!") /\
  (forall (srcPaths : SKPaths) (result : CourseData) (p : Plugin),
     getCalcValues config (courseCalcs (fst (calcResult srcPaths result p)))
     = Json 200
         (if String.eqb (method (calculations config)) "Rhumbline"
          then rl result else gc result)) /\
  (forall (srcPaths : SKPaths) (p : Plugin),
     getCalcValues config
       (courseCalcs (fst (calcResult srcPaths invalidated p)))
     = Json 200 emptyResult).
Proof.
  assert (H : forall srcPaths result p,
            courseCalcs (fst (calcResult srcPaths result p)) = Some result).
  { intros srcPaths result p. unfold calcResult.
    destruct (Watcher.observe _ _) as [wa arrival].
    destruct (Watcher.observe _ _) as [wp passed]. reflexivity. }
  split; [|split].
  - intros. unfold getCalcValues, plugin_init. cbn [courseCalcs option_map].
    destruct (String.eqb _ _); reflexivity.
  - intros. rewrite H. unfold getCalcValues.
    destruct (String.eqb _ _); reflexivity.
  - intros. rewrite H. unfold getCalcValues.
    destruct (String.eqb _ _); reflexivity.
Qed.

(** X17.  Options that leave the notification sound or the calculation
    method undefined are dropped whole by the start-up: the settings stay
    as they were, whatever method or autopilot choice the options carry;
    from the initial settings the delta message is then the great-circle
    branch's, with no steering target.  Options that define both replace
    the settings. *)
Theorem X17_partial_options_dropped (config : Config) (options : Options) :
  (forall n, options_notifications options = Some n ->
     options_sound n = None) \/
  (forall c, options_calculations options = Some c ->
     options_method c = None) ->
  doStartup config options = config /\
  (forall course : CourseData,
     buildDeltaMsg (doStartup config_init options) course
     = buildDeltaMsg config_init course /\
     List.length (buildDeltaMsg (doStartup config_init options) course)
     = 12%nat /\
     Delta.lookup "navigation.course.calcValues.distance"
       (buildDeltaMsg (doStartup config_init options) course)
     = Some (numberOrNull (distance (gc course)))) /\
  (forall s m a,
     doStartup config
       (mkOptions (Some (mkOptionsNotifications (Some s)))
          (Some (mkOptionsCalculations (Some m) a)))
     = mkConfig (mkNotifications s) (mkCalculations m a)).
Proof.
  intros H.
  assert (E : forall config, doStartup config options = config).
  { intros cfg. unfold doStartup.
    destruct (options_notifications options) as [n|]; [|reflexivity].
    destruct (options_calculations options) as [c|]; [|reflexivity].
    destruct H as [H|H].
    - rewrite (H n eq_refl). reflexivity.
    - rewrite (H c eq_refl). destruct (options_sound n); reflexivity. }
  split; [apply E|]. split; [|reflexivity].
  intros course. rewrite E. repeat split; reflexivity.
Qed.

(** * Instances of the further properties on the sample snapshots *)

Lemma Sample_timeCalcs_at_destination :
  timeCalcs Sample.Date_parse 0 Sample.underWay (Some (Num 0)) (Some (Num 1))
  = Normal (mkTimeResult (Some (Num 0)) (Some (ISO 0))).
Proof.
  assert (Hk : Int_part (0 / (1 * 0.514444) * 1000) = 0%Z).
  { symmetry. apply Int_part_spec. split; lra. }
  rewrite (timeCalcs_value _ 0 _ 0 1 0);
    [ | lra | reflexivity
      | rewrite Hk; unfold maxTime; rewrite Rabs_right; lra ].
  rewrite Hk. replace (0 + 0) with (IZR 0) by lra. rewrite trunc_IZR.
  replace (0 / 1000) with 0 by lra. reflexivity.
Qed.

Lemma Sample_session :
  exists r : CourseData,
    runWorker Sample.new_LatLon Sample.distanceTo Sample.initialBearingTo
      Sample.rhumbDistanceTo Sample.rhumbBearingTo Sample.crossTrackDistanceTo
      Sample.Date_parse
      activeDest_init
      [(0%Z, Sample.positionsOnly); (1%Z, Sample.noDestination)]
    = Normal ([Some r; Some invalidated], false).
Proof. eexists. reflexivity. Qed.

(** X2 on a snapshot under way, with a library that has no bearing to
    give. *)
Lemma X2_witness :
  exists r,
    calcs Sample.new_LatLon Sample.distanceTo (fun _ _ => NaN)
      Sample.rhumbDistanceTo (fun _ _ => NaN) Sample.crossTrackDistanceTo
      Sample.Date_parse 0 Sample.underWay = Normal r /\
    bearingTrue (gc r) = Some NaN /\ bearingTrue (rl r) = Some NaN /\
    falsy (velocityMadeGood (gc r)) = true /\
    falsy (velocityMadeGood (rl r)) = true /\
    timeToGo (gc r) = None /\ estimatedTimeOfArrival (gc r) = None /\
    timeToGo (rl r) = None /\ estimatedTimeOfArrival (rl r) = None.
Proof.
  exact (X2_no_bearing_no_times
           Sample.new_LatLon
           Sample.distanceTo (fun _ _ => NaN) Sample.rhumbDistanceTo
           (fun _ _ => NaN) Sample.crossTrackDistanceTo Sample.Date_parse
           0 Sample.underWay Sample.vessel Sample.destination Sample.start
           (Sample_point 0 0) (Sample_point (1 / 60) 0)
           (Sample_point (-1 / 60) 0) eq_refl eq_refl).
Defined.

(** X4 at 1852 m and one knot. *)
Lemma X4_witness :
  0 <= 1852 /\ 0 < 1 /\
  timeCalcs Sample.Date_parse 0 Sample.underWay
    (Some (Num 1852)) (Some (Num 1))
  = Normal (mkTimeResult (Some (Num 3600.003))
              (Some (ISO (0 + 3600003)))) /\
  exists ms : Z,
    (0 <= ms)%Z /\
    Some (Num 3600.003) = Some (Num (IZR ms / 1000)) /\
    0 <= IZR ms / 1000 /\
    (navigation_datetime Sample.underWay = None ->
     Some (ISO (0 + 3600003)) = Some (ISO (0 + ms))).
Proof.
  assert (H1 : 0 <= 1852) by lra.
  assert (H2 : 0 < 1) by lra.
  pose proof (Sample_timeCalcs 0 (Sample_maxTime 0 ltac:(lia))) as H3.
  split; [exact H1|]. split; [exact H2|]. split; [exact H3|].
  exact (X4_positive_vmg Sample.Date_parse 0 Sample.underWay 1852 1 _
           H1 H2 H3).
Defined.

(** X5 at the destination and 1852 m from it, at one knot. *)
Lemma X5_witness :
  0 <= 1852 /\ 0 < 1 /\
  timeCalcs Sample.Date_parse 0 Sample.underWay (Some (Num 0)) (Some (Num 1))
  = Normal (mkTimeResult (Some (Num 0)) (Some (ISO 0))) /\
  timeCalcs Sample.Date_parse 0 Sample.underWay
    (Some (Num 1852)) (Some (Num 1))
  = Normal (mkTimeResult (Some (Num 3600.003))
              (Some (ISO (0 + 3600003)))) /\
  exists ttg1 ttg2 : R,
    Some (Num 0) = Some (Num ttg1) /\
    Some (Num 3600.003) = Some (Num ttg2) /\ ttg1 <= ttg2.
Proof.
  assert (H1 : 0 <= 1852) by lra.
  assert (H2 : 0 < 1) by lra.
  pose proof Sample_timeCalcs_at_destination as H3.
  pose proof (Sample_timeCalcs 0 (Sample_maxTime 0 ltac:(lia))) as H4.
  split; [exact H1|]. split; [exact H2|].
  split; [exact H3|]. split; [exact H4|].
  exact (X5_time_grows_with_distance Sample.Date_parse 0 Sample.underWay
           0 1852 1 _ _ H1 H2 H3 H4).
Defined.

(** X6 at 179 and -179 degrees. *)
Lemma X6_witness :
  170 < 179 <= 180 /\ -180 <= -179 < -170 /\
  xDiff (Num 179) (Num (-179)) = Num (-179 + 360 - 179) /\
  0 <= -179 + 360 - 179 < 20 /\
  xDiff (Num (-179)) (Num 179) = Num (- (-179 + 360 - 179)).
Proof.
  assert (H1 : 170 < 179 <= 180) by lra.
  assert (H2 : -180 <= -179 < -170) by lra.
  split; [exact H1|]. split; [exact H2|].
  exact (X6_xDiff_across_antimeridian 179 (-179) H1 H2).
Defined.

(** X8 from longitude 0 to longitude 10 along the equator, the vessel at
    longitude 15. *)
Lemma X8_witness :
  -170 <= 10 <= 170 /\
  1e-9 <= Rabs (15 - 10) <= 360 /\
  1e-9 <= Rabs (0 - 10) <= 360 /\
  (passedPerpendicular (mkPosition (Num 0) (Num 15))
     (mkPosition (Num 0) (Num 10)) (mkPosition (Num 0) (Num 0)) = true
   <-> (15 - 10) * (0 - 10) < 0).
Proof.
  assert (H1 : -170 <= 10 <= 170) by lra.
  assert (H2 : 1e-9 <= Rabs (15 - 10) <= 360)
    by (rewrite Rabs_right by lra; lra).
  assert (H3 : 1e-9 <= Rabs (0 - 10) <= 360)
    by (rewrite Rabs_left by lra; lra).
  split; [exact H1|]. split; [exact H2|]. split; [exact H3|].
  exact (X8_passed_along_a_line true 0 10 15 0 H1 H2 H3).
Defined.

(** X10 on a session of a valid and a stale message. *)
Lemma X10_witness :
  exists (posts : list (option CourseData)) (a : bool),
    runWorker Sample.new_LatLon Sample.distanceTo Sample.initialBearingTo
      Sample.rhumbDistanceTo Sample.rhumbBearingTo Sample.crossTrackDistanceTo
      Sample.Date_parse
      activeDest_init
      [(0%Z, Sample.positionsOnly); (1%Z, Sample.noDestination)]
    = Normal (posts, a) /\
    (List.length (filter isInvalidation posts) + (if a then 1 else 0)
     <= List.length
          (filter (fun m => parseSKPaths (snd m))
             [(0%Z, Sample.positionsOnly); (1%Z, Sample.noDestination)]))%nat.
Proof.
  destruct Sample_session as [r H].
  exists [Some r; Some invalidated], false. split; [exact H|].
  exact (X10_invalidations_bounded _ _ _ _ _ _ _ _ _ _ H).
Defined.

(** X11 on the stamped snapshot. *)
Lemma X11_witness :
  outcome (sample_calcs 0 Sample.stamped)
    (fun r =>
       let variation := navigation_magneticVariation Sample.stamped in
       (radiansOf (Sample.initialBearingTo Sample.start Sample.destination)
          (bearingTrackTrue (gc r)) /\
        radiansOf (Sample.initialBearingTo Sample.vessel Sample.destination)
          (bearingTrue (gc r)) /\
        radiansOf (Sample.rhumbBearingTo Sample.start Sample.destination)
          (bearingTrackTrue (rl r)) /\
        radiansOf (Sample.rhumbBearingTo Sample.vessel Sample.destination)
          (bearingTrue (rl r))) /\
       (shiftedBy (Sample.initialBearingTo Sample.start Sample.destination)
          variation (bearingTrackMagnetic (gc r)) /\
        shiftedBy (Sample.initialBearingTo Sample.vessel Sample.destination)
          variation (bearingMagnetic (gc r)) /\
        shiftedBy (Sample.rhumbBearingTo Sample.start Sample.destination)
          variation (bearingTrackMagnetic (rl r)) /\
        shiftedBy (Sample.rhumbBearingTo Sample.vessel Sample.destination)
          variation (bearingMagnetic (rl r))))
    (timeCalcsThrows Sample.distanceTo Sample.initialBearingTo
       Sample.rhumbDistanceTo Sample.rhumbBearingTo Sample.Date_parse
       0 Sample.stamped Sample.vessel Sample.destination).
Proof.
  exact (X11_bearing_ranges
           Sample.new_LatLon
           Sample.distanceTo Sample.initialBearingTo Sample.rhumbDistanceTo
           Sample.rhumbBearingTo Sample.crossTrackDistanceTo Sample.Date_parse
           0 Sample.stamped Sample.vessel Sample.destination Sample.start
           (Sample_point 0 0) (Sample_point (1 / 60) 0)
           (Sample_point (-1 / 60) 0)).
Defined.

(** X12 on the stale message that takes the counter past
    MAX_STALE_COUNT. *)
Lemma X12_witness :
  (0 <= 20 <= Legacy.MAX_STALE_COUNT)%Z /\
  Legacy.runWorker CourseData (fun _ _ => Normal invalidated) invalidated
    20 [(0%Z, Sample.legacyStale)]
  = Normal ([Some invalidated], 0%Z) /\
  (0 <= 0 <= Legacy.MAX_STALE_COUNT)%Z /\
  List.length [Some invalidated] = List.length [(0%Z, Sample.legacyStale)].
Proof.
  assert (H1 : (0 <= 20 <= Legacy.MAX_STALE_COUNT)%Z)
    by (unfold Legacy.MAX_STALE_COUNT; lia).
  split; [exact H1|]. split; [reflexivity|].
  exact (X12_legacy_counter_bounded
           CourseData (fun _ _ => Normal invalidated) invalidated
           [(0%Z, Sample.legacyStale)] 20 0 [Some invalidated] H1 eq_refl).
Defined.

(** X14 on the snapshot under way, with the initial settings. *)
Lemma X14_witness :
  exists r : CourseData,
    sample_calcs 0 Sample.underWay = Normal r /\
    Delta.lookup "navigation.course.calcValues.calcMethod"
      (buildDeltaMsg config_init r) = Some (VString "Great Circle") /\
    Delta.lookup "navigation.course.calcValues.distance"
      (buildDeltaMsg config_init r) = Some (VNumber (Num 1852)) /\
    Delta.lookup "steering.autopilot.target.headingTrue"
      (buildDeltaMsg config_init r) = None.
Proof.
  destruct (Sample_underWay_calcs 0 (Sample_maxTime 0 ltac:(lia)))
    as (r & Hr & _).
  pose proof (X14_delta_of_valid_snapshot
                Sample.new_LatLon Sample.distanceTo Sample.initialBearingTo
                Sample.rhumbDistanceTo Sample.rhumbBearingTo
                Sample.crossTrackDistanceTo Sample.Date_parse
                config_init 0 Sample.underWay
                Sample.vessel Sample.destination Sample.start
                (Sample_point 0 0) (Sample_point (1 / 60) 0)
                (Sample_point (-1 / 60) 0)) as H.
  rewrite Hr in H. cbv zeta in H. cbn [outcome] in H.
  destruct H as (H1 & H2 & _ & _ & _ & _ & H3 & _).
  exists r. split; [exact Hr|]. split; [exact H1|]. split; [exact H2|].
  exact H3.
Defined.

(** X15 on the snapshot without destination. *)
Lemma X15_witness :
  exists post : CourseData,
    onMessage Sample.new_LatLon Sample.distanceTo Sample.initialBearingTo
      Sample.rhumbDistanceTo Sample.rhumbBearingTo Sample.crossTrackDistanceTo
      Sample.Date_parse
      1 Sample.noDestination true = Normal (Some post, false) /\
    Delta.lookup "navigation.course.calcValues.calcMethod"
      (buildDeltaMsg config_init post) = Some VUndefined /\
    forall v, In v (buildDeltaMsg config_init post) ->
      Delta.path v <> "navigation.course.calcValues.calcMethod"%string ->
      Delta.value v = VNull.
Proof.
  exact (X15_invalidation_delta
           Sample.new_LatLon
           Sample.distanceTo Sample.initialBearingTo Sample.rhumbDistanceTo
           Sample.rhumbBearingTo Sample.crossTrackDistanceTo Sample.Date_parse
           config_init 1 Sample.noDestination eq_refl).
Defined.

(** X17 on options that choose Rhumbline and the autopilot targets and
    say nothing of notifications. *)
Lemma X17_witness :
  let options :=
    mkOptions None
      (Some (mkOptionsCalculations (Some "Rhumbline"%string) (Some true))) in
  ((forall n, options_notifications options = Some n ->
      options_sound n = None) \/
   (forall c, options_calculations options = Some c ->
      options_method c = None)) /\
  doStartup config_init options = config_init /\
  (forall course : CourseData,
     List.length (buildDeltaMsg (doStartup config_init options) course)
     = 12%nat /\
     Delta.lookup "navigation.course.calcValues.distance"
       (buildDeltaMsg (doStartup config_init options) course)
     = Some (numberOrNull (distance (gc course)))).
Proof.
  intros options.
  assert (H : (forall n, options_notifications options = Some n ->
                 options_sound n = None) \/
              (forall c, options_calculations options = Some c ->
                 options_method c = None))
    by (left; intros n Hn; discriminate Hn).
  destruct (X17_partial_options_dropped config_init options H)
    as (E & D & _).
  split; [exact H|]. split; [exact E|].
  intros course. exact (proj2 (D course)).
Defined.
